(** * Store client: API response normalisation and page state machines

    A shallow embedding of the storefront client:
    - [Js]: the fragment of JavaScript values the client manipulates
      (JSON values, truthiness, string conversion, [Error] objects,
      promise outcomes);
    - [Api]: [src/api/api.ts], the fetch wrapper and [handleResponse];
    - [JsString]: [parseInt], [trim] and the texts of a number input;
    - [UserContext]: [src/context/UserContext.tsx], the session identity and
      its [localStorage] entry;
    - [Home], [ProductDetail], [CartPage], [Register]: the page components,
      each as a record of React state, its handlers and its render function.

    The properties follow the definitions, grouped by component. *)

From Stdlib Require Import ZArith QArith List Bool Ascii String Lia.
From stdpp Require Import base strings pretty gmap.

Set Warnings "-register-all".
Local Open Scope string_scope.
Local Open Scope Z_scope.

(* ===================================================================== *)
(** * JavaScript values *)
(* ===================================================================== *)

Module Js.

(** Values that [JSON.parse] can produce.  A number is held as an integer:
    the embedding covers the integral numbers below [10^21] in magnitude,
    whose string form is their decimal numeral, and no statement below
    depends on the number case.  An object keeps its members in source
    order, duplicates included. *)
Inductive Json : Type :=
| JNull
| JBool (b : bool)
| JNum (n : Z)
| JStr (s : string)
| JArr (elems : list Json)
| JObj (props : list (string * Json)).

(** A JavaScript value as far as the client can observe one: [undefined],
    a JSON-shaped plain value, or an instance of [Error]. *)
Inductive Value : Type :=
| VUndefined
| VJson (j : Json)
| VError (message : string).

(** [v instanceof Error] *)
Definition instanceof_Error (v : Value) : bool :=
  match v with VError _ => true | _ => false end.

(** ToBoolean on JSON values: [null], [false], [0] and [""] are falsy, every
    array and object is truthy. *)
Definition truthy (j : Json) : bool :=
  match j with
  | JNull => false
  | JBool b => b
  | JNum n => negb (n =? 0)
  | JStr s => negb (String.eqb s "")
  | JArr _ => true
  | JObj _ => true
  end.

Definition truthy_value (v : Value) : bool :=
  match v with
  | VUndefined => false
  | VJson j => truthy j
  | VError _ => true
  end.

(** ToString.  An array is joined with commas, [null] elements printing as
    the empty string ([Array.prototype.join]); a plain object prints as
    ["[object Object]"]. *)
Fixpoint toString (j : Json) : string :=
  match j with
  | JNull => "null"
  | JBool true => "true"
  | JBool false => "false"
  | JNum n => pretty n
  | JStr s => s
  | JArr elems =>
      (fix join (l : list Json) : string :=
         match l with
         | [] => ""
         | x :: rest =>
             let sx := match x with JNull => "" | _ => toString x end in
             match rest with
             | [] => sx
             | _ :: _ => sx +:+ "," +:+ join rest
             end
         end) elems
  | JObj _ => "[object Object]"
  end.

(** [a || b] *)
Definition or_else (a b : Json) : Json := if truthy a then a else b.

(** Own-property read on the result of [JSON.parse]: the last member with
    the key wins. *)
Fixpoint assoc_last (key : string) (props : list (string * Json)) : option Json :=
  match props with
  | [] => None
  | (k, v) :: rest =>
      match assoc_last key rest with
      | Some w => Some w
      | None => if String.eqb k key then Some v else None
      end
  end.

(** [body?.key]: [undefined] on [null], on primitives and on arrays (which
    have no such own property), the member's value on objects. *)
Definition opt_get (body : Json) (key : string) : Value :=
  match body with
  | JObj props =>
      match assoc_last key props with
      | Some v => VJson v
      | None => VUndefined
      end
  | _ => VUndefined
  end.

(** [new Error(msg)]: the message is [ToString(msg)]. *)
Definition new_Error (msg : Json) : Value := VError (toString msg).

(** How a promise settles. *)
Inductive Outcome (A : Type) : Type :=
| Resolved (a : A)
| Rejected (reason : Value).
Arguments Resolved {A} a.
Arguments Rejected {A} reason.

End Js.

(* ===================================================================== *)
(** * The API client, [src/api/api.ts] *)
(* ===================================================================== *)

Module Api.
Import Js.

(** What [res.json()] finds in the body. *)
Inductive Body : Type :=
| BodyJson (j : Json)
| BodyMalformed (syntaxError : string).

Record Response : Type := mkResponse {
  status : Z;
  statusText : string;
  body : Body
}.

(** [res.ok], which the Fetch standard defines as a status in 200..299. *)
Definition ok (res : Response) : bool :=
  (200 <=? status res) && (status res <=? 299).

(** [res.json()] *)
Definition json (res : Response) : Outcome Json :=
  match body res with
  | BodyJson j => Resolved j
  | BodyMalformed e => Rejected (VError e)
  end.

Record RequestInit : Type := mkInit {
  method : option string;
  headers : list (string * string);
  body_json : option Json       (* the value given to [JSON.stringify] *)
}.

Record Request : Type := mkRequest {
  url : string;
  init : RequestInit
}.

Inductive Event : Type :=
| Fetch (req : Request)
| ReadJson.

(** A run of an async function of the client: what it did, and how its
    promise settled. *)
Definition Run : Type := (list Event * Outcome Value)%type.

Definition handleResponse (res : Response) : Run :=
  if ok res then
    if status res =? 204 then
      ([], Resolved VUndefined)
    else
      ([ReadJson],
       match json res with
       | Resolved j => Resolved (VJson j)
       | Rejected e => Rejected e
       end)
  else
    let err := JStr (statusText res) in
    let err :=
      match json res with
      | Resolved body =>
          match opt_get body "message" with
          | VJson m => if truthy m then m else err
          | _ => err
          end
      | Rejected _ => err
      end in
    ([ReadJson],
     Rejected (new_Error (or_else err (JStr ("HTTP " +:+ pretty (status res)))))).

(** The value [err] holds when [handleResponse] reaches its [throw]. *)
Definition thrown_from (res : Response) : Json :=
  match body res with
  | BodyJson b =>
      match opt_get b "message" with
      | VJson m => if truthy m then m else JStr (statusText res)
      | _ => JStr (statusText res)
      end
  | BodyMalformed _ => JStr (statusText res)
  end.

(** The message the specification prescribes for a failed response: the
    body's message when the body parses and carries a non-empty one, else
    the status text, else ["HTTP {status}"]. *)
Definition preferred_message (res : Response) : string :=
  let fallback :=
    if String.eqb (statusText res) "" then "HTTP " +:+ pretty (status res)
    else statusText res in
  match body res with
  | BodyJson b =>
      match opt_get b "message" with
      | VJson (JStr m) => if String.eqb m "" then fallback else m
      | _ => fallback
      end
  | BodyMalformed _ => fallback
  end.

(** The body has no message, or one that is text. *)
Definition textual_message (res : Response) : Prop :=
  match body res with
  | BodyJson b =>
      match opt_get b "message" with
      | VJson (JStr _) | VUndefined => True
      | _ => False
      end
  | BodyMalformed _ => True
  end.

(** ** Request DTOs, [src/types/api.ts], and their [JSON.stringify] form *)

Record CreateUserRequest : Type := mkCreateUser {
  cu_username : string;
  cu_email : string
}.

Record UpdateUserRequest : Type := mkUpdateUser {
  uu_username : option string;
  uu_email : option string
}.

Record AddToCartRequest : Type := mkAddToCart {
  productId : Z;
  quantity : Z
}.

Definition CreateUserRequest_json (dto : CreateUserRequest) : Json :=
  JObj [("username", JStr (cu_username dto)); ("email", JStr (cu_email dto))].

(** Members that are [undefined] are left out by [JSON.stringify]. *)
Definition UpdateUserRequest_json (dto : UpdateUserRequest) : Json :=
  JObj (match uu_username dto with Some u => [("username", JStr u)] | None => [] end
        ++ match uu_email dto with Some e => [("email", JStr e)] | None => [] end).

Definition AddToCartRequest_json (r : AddToCartRequest) : Json :=
  JObj [("productId", JNum (productId r)); ("quantity", JNum (quantity r))].

(** ** The request functions *)

Section Client.

(** [import.meta.env.VITE_API_BASE_URL ?? ""] *)
Variable BASE : string.
(** The network: how [fetch] settles for a given request. *)
Variable fetch : Request -> Outcome Response.

(** [const res = await fetch(url, init); return handleResponse(res);] *)
Definition send (u : string) (i : RequestInit) : Run :=
  let req := mkRequest u i in
  match fetch req with
  | Rejected e => ([Fetch req], Rejected e)
  | Resolved res =>
      let '(evs, out) := handleResponse res in (Fetch req :: evs, out)
  end.

Definition json_headers : list (string * string) :=
  [("Content-Type", "application/json"); ("Accept", "application/json")].
Definition accept_headers : list (string * string) :=
  [("Accept", "application/json")].

Definition createUser (dto : CreateUserRequest) : Run :=
  send (BASE +:+ "/api/users")
       {| method := Some "POST"; headers := json_headers;
          body_json := Some (CreateUserRequest_json dto) |}.

Definition getUsers : Run :=
  send (BASE +:+ "/api/users")
       {| method := None; headers := accept_headers; body_json := None |}.

Definition getUserById (id : Z) : Run :=
  send (BASE +:+ "/api/users/" +:+ pretty id)
       {| method := None; headers := accept_headers; body_json := None |}.

Definition updateUser (id : Z) (dto : UpdateUserRequest) : Run :=
  send (BASE +:+ "/api/users/" +:+ pretty id)
       {| method := Some "PUT"; headers := json_headers;
          body_json := Some (UpdateUserRequest_json dto) |}.

Definition deleteUser (id : Z) : Run :=
  send (BASE +:+ "/api/users/" +:+ pretty id)
       {| method := Some "DELETE"; headers := []; body_json := None |}.

Definition getProducts : Run :=
  send (BASE +:+ "/api/products")
       {| method := None; headers := accept_headers; body_json := None |}.

Definition getProductById (id : Z) : Run :=
  send (BASE +:+ "/api/products/" +:+ pretty id)
       {| method := None; headers := accept_headers; body_json := None |}.

Definition getCart (userId : Z) : Run :=
  send (BASE +:+ "/api/cart?userId=" +:+ pretty userId)
       {| method := None; headers := accept_headers; body_json := None |}.

Definition addToCart (userId : Z) (request : AddToCartRequest) : Run :=
  send (BASE +:+ "/api/cart/add?userId=" +:+ pretty userId)
       {| method := Some "POST"; headers := json_headers;
          body_json := Some (AddToCartRequest_json request) |}.

Definition removeFromCart (userId productId : Z) : Run :=
  send (BASE +:+ "/api/cart/remove/" +:+ pretty productId
             +:+ "?userId=" +:+ pretty userId)
       {| method := Some "DELETE"; headers := []; body_json := None |}.

Definition checkout (userId : Z) : Run :=
  send (BASE +:+ "/api/cart/checkout?userId=" +:+ pretty userId)
       {| method := Some "POST"; headers := accept_headers; body_json := None |}.

End Client.

(** ** What goes on the wire *)

(** The requests a run issued, in order. *)
Definition issued (r : Run) : list Request :=
  omap (fun e => match e with Fetch req => Some req | ReadJson => None end) (fst r).

(** The number of times a run read a response body as JSON. *)
Definition json_reads (r : Run) : nat :=
  length (List.filter (fun e => match e with ReadJson => true | _ => false end)
                      (fst r)).

Definition header (name : string) (hs : list (string * string)) : option string :=
  snd <$> find (fun kv => String.eqb (fst kv) name) hs.

(** The header list the browser sends: the Fetch standard appends
    [Accept: */*] when the caller set no [Accept]. *)
Definition sent_headers (req : Request) : list (string * string) :=
  let hs := headers (init req) in
  match header "Accept" hs with
  | Some _ => hs
  | None => hs ++ [("Accept", "*/*")]
  end.

Definition sends (req : Request) (name value : string) : Prop :=
  header name (sent_headers req) = Some value.

(** The endpoints of the client, for statements that range over all of
    them. *)
Inductive Call : Type :=
| CreateUser (dto : CreateUserRequest)
| GetUsers
| GetUserById (id : Z)
| UpdateUser (id : Z) (dto : UpdateUserRequest)
| DeleteUser (id : Z)
| GetProducts
| GetProductById (id : Z)
| GetCart (userId : Z)
| AddToCart (userId : Z) (request : AddToCartRequest)
| RemoveFromCart (userId productId : Z)
| Checkout (userId : Z).

Definition perform (BASE : string) (fetch : Request -> Outcome Response)
    (c : Call) : Run :=
  match c with
  | CreateUser dto => createUser BASE fetch dto
  | GetUsers => getUsers BASE fetch
  | GetUserById id => getUserById BASE fetch id
  | UpdateUser id dto => updateUser BASE fetch id dto
  | DeleteUser id => deleteUser BASE fetch id
  | GetProducts => getProducts BASE fetch
  | GetProductById id => getProductById BASE fetch id
  | GetCart u => getCart BASE fetch u
  | AddToCart u r => addToCart BASE fetch u r
  | RemoveFromCart u p => removeFromCart BASE fetch u p
  | Checkout u => checkout BASE fetch u
  end.

End Api.

(* ===================================================================== *)
(** * Strings and [parseInt] *)
(* ===================================================================== *)

Module JsString.

(** A string is its sequence of code units, here those below 256.  White
    space and line terminators of that range. *)
Definition is_whitespace (c : ascii) : bool :=
  let n := Z.of_N (N_of_ascii c) in
  ((9 <=? n) && (n <=? 13)) || (n =? 32) || (n =? 160).

Definition digit_of (c : ascii) : option Z :=
  let n := Z.of_N (N_of_ascii c) in
  if (48 <=? n) && (n <=? 57) then Some (n - 48) else None.

Fixpoint skip_whitespace (s : string) : string :=
  match s with
  | String c rest => if is_whitespace c then skip_whitespace rest else s
  | EmptyString => s
  end.

(** The value of the longest prefix of decimal digits; [acc] is the value
    read so far, [None] while no digit was read. *)
Fixpoint digits_prefix (s : string) (acc : option Z) : option Z :=
  match s with
  | String c rest =>
      match digit_of c with
      | Some d => digits_prefix rest (Some (10 * default 0 acc + d))
      | None => acc
      end
  | EmptyString => acc
  end.

(** [Number.MAX_SAFE_INTEGER]: up to it every integer is a JavaScript
    number, so arithmetic on [Z] and on numbers agree. *)
Definition MAX_SAFE_INTEGER : Z := 2 ^ 53 - 1.

(** [parseInt(s, 10)]; [None] is [NaN].  Leading white space is skipped, one
    sign is read, then the longest run of digits; whatever follows is
    ignored.  The result is exact while the digits denote a safe integer. *)
Definition parseInt (s : string) : option Z :=
  match skip_whitespace s with
  | String "-" rest => Z.opp <$> digits_prefix rest None
  | String "+" rest => digits_prefix rest None
  | t => digits_prefix t None
  end.

(** [s.trim()] *)
Definition trim (s : string) : string :=
  String.rev (skip_whitespace (String.rev (skip_whitespace s))).

(** ** Texts of a number input *)

Definition starts_with_digit (s : string) : bool :=
  match s with
  | String c _ => match digit_of c with Some _ => true | None => false end
  | EmptyString => false
  end.

(** The text begins, after white space and at most one sign, with a
    digit.  A text that does not is what the specification calls
    non-numeric; the empty text is one. *)
Definition numeric_text (s : string) : bool :=
  match skip_whitespace s with
  | String "-" rest => starts_with_digit rest
  | String "+" rest => starts_with_digit rest
  | t => starts_with_digit t
  end.


(** The number a string of digits denotes, continuing from [acc]. *)
Fixpoint digits_value (acc : Z) (s : string) : Z :=
  match s with
  | String c rest => digits_value (10 * acc + default 0 (digit_of c)) rest
  | EmptyString => acc
  end.

(** A decimal input such as ["2.5"], ["-0.75"] or [".5"]: a sign, the
    digits before the point and the digits after it. *)
Record Decimal : Type := mkDecimal {
  negative : bool;
  whole : string;
  fraction : string
}.


Definition text (d : Decimal) : string :=
  (if negative d then "-" else "") +:+ whole d +:+ "." +:+ fraction d.

(** The rational number the input denotes. *)
Definition value (d : Decimal) : Q :=
  let scale := 10 ^ Z.of_nat (String.length (fraction d)) in
  let magnitude := digits_value 0 (whole d) * scale + digits_value 0 (fraction d) in
  Qmake (if negative d then - magnitude else magnitude) (Z.to_pos scale).


(** [Number.isSafeInteger(n)] on an integral number. *)
Definition isSafeInteger (n : Z) : bool := Z.abs n <=? MAX_SAFE_INTEGER.

(** [n.toString()] and [`${n}`] on an integral number: its decimal
    numeral.  This is what JavaScript prints for every safe integer; from
    [10^21] up it prints exponent notation instead ([(1e21).toString()] is
    ["1e+21"]), and between the two ranges not every integer is a number.
    Statements about the stored text of an id therefore bound the id by
    [isSafeInteger]. *)
Definition Number_toString (n : Z) : string := pretty n.

End JsString.

(* ===================================================================== *)
(** * The session identity, [src/context/UserContext.tsx] *)
(* ===================================================================== *)

Module UserContext.
Import JsString.

Definition USER_ID_STORAGE_KEY : string := "ai-store-user-id".

(** The React state of the provider together with the browser's
    [localStorage]. *)
Record Session : Type := mkSession {
  currentUserId : option Z;
  localStorage : gmap string string
}.

(** The provider's mount effect: adopt a stored id that parses. *)
Definition mount (s : Session) : Session :=
  match localStorage s !! USER_ID_STORAGE_KEY with
  | Some stored =>
      if negb (String.eqb stored "") then
        match parseInt stored with
        | Some id => mkSession (Some id) (localStorage s)
        | None => s
        end
      else s
  | None => s
  end.

Definition setCurrentUserId (id : option Z) (s : Session) : Session :=
  {| currentUserId := id;
     localStorage :=
       match id with
       | Some n => <[USER_ID_STORAGE_KEY := Number_toString n]> (localStorage s)
       | None => delete USER_ID_STORAGE_KEY (localStorage s)
       end |}.

Definition clearUser (s : Session) : Session := setCurrentUserId None s.

(** The stored entry mirrors the identity: the key holds the string form of
    the id when there is one, and is absent when there is none. *)
Definition in_sync (s : Session) : Prop :=
  localStorage s !! USER_ID_STORAGE_KEY = Number_toString <$> currentUserId s.

(** The identity is [null] or a safe integer, the range on which
    [Number_toString] is the text [id.toString()] stores. *)
Definition safe (id : option Z) : Prop :=
  match id with
  | Some n => isSafeInteger n = true
  | None => True
  end.

(** The id a component holds when [currentUserId] is truthy: [null] and
    [0] are falsy. *)
Definition identified (id : option Z) : option Z :=
  match id with
  | Some n => if n =? 0 then None else Some n
  | None => None
  end.

End UserContext.

(* ===================================================================== *)
(** * Page components: shared machinery *)
(* ===================================================================== *)

Module React.
Import Js.

(** ** Response DTOs, [src/types/api.ts] *)

Record UserDto : Type := mkUser {
  user_id : Z;
  username : string;
  email : string
}.

Record ProductDto : Type := mkProduct {
  product_id : Z;
  name : string;
  description : option string;
  price : Q;
  stockQuantity : Z
}.

Record CartItemDto : Type := mkCartItem {
  item_id : Z;
  item_productId : Z;
  productName : string;
  item_price : Q;
  item_quantity : Z;
  subtotal : Q
}.

Record CheckoutResultDto : Type := mkCheckoutResult {
  success : bool;
  message : string;
  totalAmount : option Q;
  purchasedItems : option (list CartItemDto)
}.

(** ** The imported API module

    A page sees the client as a set of functions returning promises; this
    is how each of them settles. *)
Record ApiModule : Type := mkApi {
  getProducts : Outcome (list ProductDto);
  getProductById : option Z -> Outcome ProductDto;   (* [None] is [NaN] *)
  addToCart : Z -> Api.AddToCartRequest -> Outcome unit;
  getCart : Z -> Outcome (list CartItemDto);
  removeFromCart : Z -> Z -> Outcome unit;
  checkout : Z -> Outcome CheckoutResultDto;
  createUser : Api.CreateUserRequest -> Outcome UserDto
}.

Inductive Request : Type :=
| GetProducts
| GetProductById (id : option Z)
| AddToCart (userId : Z) (request : Api.AddToCartRequest)
| GetCart (userId : Z)
| RemoveFromCart (userId productId : Z)
| Checkout (userId : Z)
| CreateUser (dto : Api.CreateUserRequest).

(** What a [setTimeout] callback of the pages does when it fires. *)
Inductive Callback : Type :=
| ClearMessage
| NavigateTo (path : string).

(** What a handler does besides updating its component's state. *)
Inductive Effect : Type :=
| Issue (r : Request)
| Navigate (path : string)
| SetTimeout (cb : Callback) (ms : Z)
| SetCurrentUserId (id : option Z).

(** ** Handlers

    An event handler or effect runs against the client, updates the
    component's pending state, performs effects, and completes normally or
    with an exception.  A handler is a closure: what it reads of the state is
    the snapshot of the render that created it, which the definitions below
    take as an argument. *)
Definition M (S A : Type) : Type :=
  ApiModule -> S -> (Outcome A * S * list Effect).

Definition ret {S A} (a : A) : M S A := fun _ s => (Resolved a, s, []).

Definition bind {S A B} (m : M S A) (k : A -> M S B) : M S B :=
  fun api s =>
    match m api s with
    | (Resolved a, s', l) =>
        let '(r, s'', l') := k a api s' in (r, s'', (l ++ l')%list)
    | (Rejected e, s', l) => (Rejected e, s', l)
    end.

(** [try { m } catch (err) { h err }] *)
Definition try_catch {S A} (m : M S A) (h : Value -> M S A) : M S A :=
  fun api s =>
    match m api s with
    | (Rejected e, s', l) =>
        let '(r, s'', l') := h e api s' in (r, s'', (l ++ l')%list)
    | settled => settled
    end.

(** [try { m } finally { f }] *)
Definition try_finally {S A} (m : M S A) (f : M S unit) : M S A :=
  fun api s =>
    let '(r, s', l) := m api s in
    match f api s' with
    | (Resolved _, s'', l') => (r, s'', (l ++ l')%list)
    | (Rejected e, s'', l') => (Rejected e, s'', (l ++ l')%list)
    end.

(** A React state setter. *)
Definition set {S} (f : S -> S) : M S unit := fun _ s => (Resolved tt, f s, []).

Definition perform {S} (e : Effect) : M S unit := fun _ s => (Resolved tt, s, [e]).

(** [await f(args)] on a function of the API module. *)
Definition await {S A} (r : Request) (f : ApiModule -> Outcome A) : M S A :=
  fun api s => (f api, s, [Issue r]).

Definition settled {S A} (x : Outcome A * S * list Effect) : Outcome A := x.1.1.
Definition state_of {S A} (x : Outcome A * S * list Effect) : S := x.1.2.
Definition effects {S A} (x : Outcome A * S * list Effect) : list Effect := x.2.

(** The requests among the effects. *)
Definition requests (l : list Effect) : list Request :=
  omap (fun e => match e with Issue r => Some r | _ => None end) l.

(** The navigations among the effects. *)
Definition navigations (l : list Effect) : list string :=
  omap (fun e => match e with Navigate p => Some p | _ => None end) l.

(** [err instanceof Error ? err.message : fallback] *)
Definition message_or (err : Value) (fallback : string) : string :=
  match err with
  | VError m => m
  | _ => fallback
  end.

(** The text a call site puts on screen for a caught rejection: the
    error's own message for an instance of [Error], the site's fixed
    fallback for anything else. *)
Definition caught_text (reason : Value) (fallback : string) : string :=
  match reason with
  | VError m => m
  | VUndefined | VJson _ => fallback
  end.

(** A client on which every call rejects with [reason]. *)
Definition rejecting (reason : Value) : ApiModule :=
  {| getProducts := Rejected reason;
     getProductById := fun _ => Rejected reason;
     addToCart := fun _ _ => Rejected reason;
     getCart := fun _ => Rejected reason;
     removeFromCart := fun _ _ => Rejected reason;
     checkout := fun _ => Rejected reason;
     createUser := fun _ => Rejected reason |}.

(** Truthiness of a [string | null] state: [null] and [""] render
    nothing. *)
Definition shown (o : option string) : option string :=
  match o with
  | Some s => if String.eqb s "" then None else Some s
  | None => None
  end.

End React.

Declare Scope handler_scope.
Delimit Scope handler_scope with handler.
Notation "'let!' x ':=' m 'in' k" := (React.bind m (fun x => k))
  (at level 10, x name, m at level 99, k at level 200) : handler_scope.
Notation "m ;; k" := (React.bind m (fun _ => k))
  (at level 100, k at level 200, right associativity) : handler_scope.

(* ===================================================================== *)
(** * The product list, [src/pages/Home.tsx] *)
(* ===================================================================== *)

Module Home.
Import Js React.
Local Open Scope handler_scope.

Record State : Type := mkState {
  products : list ProductDto;
  loading : bool;
  error : option string;
  message : option string
}.

Definition initial : State := mkState [] true None None.

Definition setProducts (v : list ProductDto) : M State unit :=
  set (fun s => mkState v (loading s) (error s) (message s)).
Definition setLoading (v : bool) : M State unit :=
  set (fun s => mkState (products s) v (error s) (message s)).
Definition setError (v : option string) : M State unit :=
  set (fun s => mkState (products s) (loading s) v (message s)).
Definition setMessage (v : option string) : M State unit :=
  set (fun s => mkState (products s) (loading s) (error s) v).

Definition loadProducts : M State unit :=
  try_finally
    (try_catch
       (setLoading true ;;
        setError None ;;
        let! data := await GetProducts getProducts in
        setProducts data)
       (fun err => setError (Some (message_or err "Failed to load products"))))
    (setLoading false).

(** [currentUserId] is what [useUser()] gave the render. *)
Definition handleAddToCart (currentUserId : option Z) (productId quantity : Z)
    : M State unit :=
  match UserContext.identified currentUserId with
  | None => setMessage (Some "Please register or login to add items to cart")
  | Some userId =>
      let request := Api.mkAddToCart productId quantity in
      try_catch
        (setMessage None ;;
         await (AddToCart userId request) (fun api => addToCart api userId request) ;;
         setMessage (Some "Item added to cart!") ;;
         perform (SetTimeout ClearMessage 3000))
        (fun err => setError (Some (message_or err "Failed to add to cart")))
  end.

(** What the component returns. *)
Inductive View : Type :=
| LoadingView
| ErrorView (text : string)                      (* with the Retry button *)
| ProductsView (banner : option string) (cards : list ProductDto).

Definition render (s : State) : View :=
  if loading s then LoadingView
  else match shown (error s) with
       | Some text => ErrorView text
       | None => ProductsView (shown (message s)) (products s)
       end.

(** The error text on screen, if any. *)
Definition displayed_error (v : View) : option string :=
  match v with
  | ErrorView text => Some text
  | _ => None
  end.

End Home.

(* ===================================================================== *)
(** * The cart, [src/pages/CartPage.tsx] *)
(* ===================================================================== *)

Module CartPage.
Import Js React.
Local Open Scope handler_scope.

Record State : Type := mkState {
  cartItems : list CartItemDto;
  loading : bool;
  error : option string;
  checkoutResult : option CheckoutResultDto
}.

Definition initial : State := mkState [] true None None.

Definition setCartItems (v : list CartItemDto) : M State unit :=
  set (fun s => mkState v (loading s) (error s) (checkoutResult s)).
Definition setLoading (v : bool) : M State unit :=
  set (fun s => mkState (cartItems s) v (error s) (checkoutResult s)).
Definition setError (v : option string) : M State unit :=
  set (fun s => mkState (cartItems s) (loading s) v (checkoutResult s)).
Definition setCheckoutResult (v : option CheckoutResultDto) : M State unit :=
  set (fun s => mkState (cartItems s) (loading s) (error s) v).

Definition loadCart (currentUserId : option Z) : M State unit :=
  match UserContext.identified currentUserId with
  | None => ret tt
  | Some userId =>
      try_finally
        (try_catch
           (setLoading true ;;
            setError None ;;
            let! data := await (GetCart userId) (fun api => getCart api userId) in
            setCartItems data)
           (fun err => setError (Some (message_or err "Failed to load cart"))))
        (setLoading false)
  end.

(** The effect that runs when the page is entered and whenever the
    identity changes. *)
Definition useEffect (currentUserId : option Z) : M State unit :=
  match UserContext.identified currentUserId with
  | None => perform (Navigate "/register")
  | Some _ => loadCart currentUserId
  end.

Definition handleRemove (currentUserId : option Z) (productId : Z)
    : M State unit :=
  match UserContext.identified currentUserId with
  | None => ret tt
  | Some userId =>
      try_catch
        (setError None ;;
         await (RemoveFromCart userId productId)
               (fun api => removeFromCart api userId productId) ;;
         loadCart currentUserId)
        (fun err => setError (Some (message_or err "Failed to remove item")))
  end.

(** [snapshot] is the state of the render whose button was clicked. *)
Definition handleCheckout (currentUserId : option Z) (snapshot : State)
    : M State unit :=
  match UserContext.identified currentUserId with
  | None => ret tt
  | Some userId =>
      if (length (cartItems snapshot) =? 0)%nat then
        setError (Some "Your cart is empty")
      else
        try_catch
          (setError None ;;
           let! result := await (Checkout userId) (fun api => checkout api userId) in
           setCheckoutResult (Some result) ;;
           if success result then setCartItems [] else ret tt)
          (fun err => setError (Some (message_or err "Checkout failed")))
  end.

Inductive View : Type :=
| NullView                                       (* [return null] *)
| LoadingView
| ResultView (succeeded : bool) (title text : string)
             (total : option Q) (purchased : list CartItemDto)
| CartView (banner : option string) (items : list CartItemDto).

Definition render (currentUserId : option Z) (s : State) : View :=
  match UserContext.identified currentUserId with
  | None => NullView
  | Some _ =>
      if loading s then LoadingView
      else match checkoutResult s with
           | Some r =>
               ResultView (success r)
                 (if success r then "✓ Checkout Successful!" else "Checkout Failed")
                 (message r)
                 (if success r then totalAmount r else None)
                 (default [] (purchasedItems r))
           | None => CartView (shown (error s)) (cartItems s)
           end
  end.

(** The error text on screen, if any. *)
Definition displayed_error (v : View) : option string :=
  match v with
  | CartView banner _ => banner
  | _ => None
  end.

End CartPage.

(* ===================================================================== *)
(** * The product page, [src/pages/ProductDetail.tsx] *)
(* ===================================================================== *)

Module ProductDetail.
Import Js JsString React.
Local Open Scope handler_scope.

Record State : Type := mkState {
  product : option ProductDto;
  loading : bool;
  error : option string;
  quantity : Z;
  message : option string
}.

Definition initial : State := mkState None true None 1 None.

Definition setProduct (v : option ProductDto) : M State unit :=
  set (fun s => mkState v (loading s) (error s) (quantity s) (message s)).
Definition setLoading (v : bool) : M State unit :=
  set (fun s => mkState (product s) v (error s) (quantity s) (message s)).
Definition setError (v : option string) : M State unit :=
  set (fun s => mkState (product s) (loading s) v (quantity s) (message s)).
Definition setQuantity (v : Z) : M State unit :=
  set (fun s => mkState (product s) (loading s) (error s) v (message s)).
Definition setMessage (v : option string) : M State unit :=
  set (fun s => mkState (product s) (loading s) (error s) (quantity s) v).

Definition loadProduct (productId : option Z) : M State unit :=
  try_finally
    (try_catch
       (setLoading true ;;
        setError None ;;
        let! data := await (GetProductById productId)
                           (fun api => getProductById api productId) in
        setProduct (Some data))
       (fun err => setError (Some (message_or err "Failed to load product"))))
    (setLoading false).

(** The effect on the route parameter [id]. *)
Definition useEffect (id : option string) : M State unit :=
  match shown id with
  | Some text => loadProduct (parseInt text)
  | None => ret tt
  end.

(** The quantity input's [onChange], on the text of the input. *)
Definition onChange (value : string) : M State unit :=
  let val := parseInt value in
  setQuantity (match val with None => 1 | Some n => n end).

(** [snapshot] is the state of the render whose button was clicked. *)
Definition handleAddToCart (currentUserId : option Z) (snapshot : State)
    : M State unit :=
  match UserContext.identified currentUserId with
  | None =>
      setMessage (Some "Please register or login to add items to cart") ;;
      perform (SetTimeout (NavigateTo "/register") 2000)
  | Some userId =>
      match product snapshot with
      | None => ret tt
      | Some p =>
          if quantity snapshot <=? 0 then
            setMessage (Some "Quantity must be greater than 0")
          else if quantity snapshot >? stockQuantity p then
            setMessage (Some ("Only " +:+ Number_toString (stockQuantity p)
                                      +:+ " items available in stock"))
          else
            let request := Api.mkAddToCart (product_id p) (quantity snapshot) in
            try_catch
              (setMessage None ;;
               await (AddToCart userId request)
                     (fun api => addToCart api userId request) ;;
               setMessage (Some "Item added to cart!") ;;
               perform (SetTimeout ClearMessage 3000))
              (fun err => setError (Some (message_or err "Failed to add to cart")))
      end
  end.

(** The purchase area: the quantity form for an identified user, a prompt
    to register otherwise. *)
Inductive Purchase : Type :=
| QuantityForm (value : Z) (disabled : bool)
| LoginPrompt.

Inductive View : Type :=
| LoadingView
| ErrorView (text : string)                (* with the Back to Products button *)
| ProductView (p : ProductDto) (banner : option string) (area : Purchase).

Definition render (currentUserId : option Z) (s : State) : View :=
  if loading s then LoadingView
  else match shown (error s), product s with
       | Some text, _ => ErrorView text
       | None, None => ErrorView "Product not found"
       | None, Some p =>
           let isOutOfStock := stockQuantity p <=? 0 in
           ProductView p (shown (message s))
             (match UserContext.identified currentUserId with
              | Some _ => QuantityForm (quantity s) isOutOfStock
              | None => LoginPrompt
              end)
       end.

(** The error text on screen, if any. *)
Definition displayed_error (v : View) : option string :=
  match v with
  | ErrorView text => Some text
  | _ => None
  end.

End ProductDetail.

(* ===================================================================== *)
(** * Registration, [src/pages/Register.tsx] *)
(* ===================================================================== *)

Module Register.
Import Js JsString React.
Local Open Scope handler_scope.

Record State : Type := mkState {
  username : string;
  email : string;
  loading : bool;
  error : option string
}.

Definition initial : State := mkState "" "" false None.

Definition setUsername (v : string) : M State unit :=
  set (fun s => mkState v (email s) (loading s) (error s)).
Definition setEmail (v : string) : M State unit :=
  set (fun s => mkState (username s) v (loading s) (error s)).
Definition setLoading (v : bool) : M State unit :=
  set (fun s => mkState (username s) (email s) v (error s)).
Definition setError (v : option string) : M State unit :=
  set (fun s => mkState (username s) (email s) (loading s) v).

(** [[^\s@]] *)
Definition plain_char (c : ascii) : bool :=
  negb (is_whitespace c) && negb (Ascii.eqb c "@").

Fixpoint all_plain (s : string) : bool :=
  match s with
  | String c rest => plain_char c && all_plain rest
  | EmptyString => true
  end.

(** Whether [s] has a ["."] with text on both sides: [s] is [b ++ "." ++ c]
    with [b] and [c] not empty.  [seen] tells whether a character came
    before. *)
Fixpoint has_inner_dot (seen : bool) (s : string) : bool :=
  match s with
  | String c rest =>
      (seen && Ascii.eqb c "." && negb (String.eqb rest ""))
      || has_inner_dot true rest
  | EmptyString => false
  end.

(** Splits at the first ["@"]. *)
Fixpoint split_at (s : string) : option (string * string) :=
  match s with
  | String c rest =>
      if Ascii.eqb c "@" then Some ("", rest)
      else match split_at rest with
           | Some (a, b) => Some (String c a, b)
           | None => None
           end
  | EmptyString => None
  end.

(** [/^[^\s@]+@[^\s@]+\.[^\s@]+$/.test(s)] *)
Definition emailRegex_test (s : string) : bool :=
  match split_at s with
  | Some (local, domain) =>
      negb (String.eqb local "") && all_plain local
      && all_plain domain && has_inner_dot false domain
  | None => false
  end.

(** [snapshot] is the state of the render whose form was submitted. *)
Definition handleSubmit (snapshot : State) : M State unit :=
  setError None ;;
  if String.eqb (trim (username snapshot)) "" then
    setError (Some "Username is required")
  else if String.eqb (trim (email snapshot)) "" then
    setError (Some "Email is required")
  else if negb (emailRegex_test (email snapshot)) then
    setError (Some "Please enter a valid email address")
  else
    let dto := Api.mkCreateUser (trim (username snapshot)) (trim (email snapshot)) in
    try_finally
      (try_catch
         (setLoading true ;;
          let! user := await (CreateUser dto) (fun api => createUser api dto) in
          perform (SetCurrentUserId (Some (user_id user))) ;;
          perform (Navigate "/"))
         (fun err => setError (Some (message_or err "Failed to create user"))))
      (setLoading false).

Inductive View : Type :=
| AlreadyLoggedIn (id : Z)
| Form (banner : option string) (busy : bool).

Definition render (currentUserId : option Z) (s : State) : View :=
  match UserContext.identified currentUserId with
  | Some id => AlreadyLoggedIn id
  | None => Form (shown (error s)) (loading s)
  end.

(** The error text on screen, if any. *)
Definition displayed_error (v : View) : option string :=
  match v with
  | Form banner _ => banner
  | _ => None
  end.

(** The form passes the client-side checks of [handleSubmit]. *)
Definition valid (s : State) : Prop :=
  trim (username s) <> "" /\ trim (email s) <> ""
  /\ emailRegex_test (email s) = true.

End Register.

(* ===================================================================== *)
(** * Sample data *)
(* ===================================================================== *)

Module Samples.
Import Js React.

Definition laptop : ProductDto :=
  mkProduct 1 "Laptop" (Some "Gaming laptop") (99999 # 100)%Q 5.

Definition line : CartItemDto :=
  mkCartItem 1 1 "Laptop" (99999 # 100)%Q 1 (99999 # 100)%Q.

Definition declined : CheckoutResultDto :=
  mkCheckoutResult false "Some items out of stock" None None.

Definition accepted : CheckoutResultDto :=
  mkCheckoutResult true "Order placed" (Some (99999 # 100)%Q) (Some [line]).

(** A client on which every call resolves, checkout with [r]. *)
Definition resolving (r : CheckoutResultDto) : ApiModule :=
  {| getProducts := Resolved [laptop];
     getProductById := fun _ => Resolved laptop;
     addToCart := fun _ _ => Resolved tt;
     getCart := fun _ => Resolved [line];
     removeFromCart := fun _ _ => Resolved tt;
     checkout := fun _ => Resolved r;
     createUser := fun _ => Resolved (mkUser 123 "alice" "alice@example.com") |}.

(** A client on which add-to-cart resolves while remove-from-cart rejects
    with an [Error] and checkout with a bare string. *)
Definition flaky : ApiModule :=
  {| getProducts := Resolved [laptop];
     getProductById := fun _ => Resolved laptop;
     addToCart := fun _ _ => Resolved tt;
     getCart := fun _ => Resolved [line];
     removeFromCart := fun _ _ => Rejected (VError "Item not in cart");
     checkout := fun _ => Rejected (VJson (JStr "String error"));
     createUser := fun _ => Resolved (mkUser 123 "alice" "alice@example.com") |}.

Definition listing : Home.State := Home.mkState [laptop] false None None.
Definition viewing : ProductDetail.State :=
  ProductDetail.mkState (Some laptop) false None 1 None.
Definition basket : CartPage.State := CartPage.mkState [line] false None None.
Definition filled_form : Register.State :=
  Register.mkState "alice" "alice@example.com" false None.

End Samples.

(* ===================================================================== *)
(** * The components around the pages *)
(* ===================================================================== *)

(** [src/components/ProductCard.tsx] *)
Module ProductCard.
Import Js React.

(** The card's click handler; [onAddToCart] is the optional prop. *)
Definition handleAddToCart {S} (onAddToCart : option (Z -> Z -> M S unit))
    (currentUserId : option Z) (product : ProductDto) : M S unit :=
  match onAddToCart, UserContext.identified currentUserId with
  | Some callback, Some _ => callback (product_id product) 1
  | _, _ => ret tt
  end.

Definition isOutOfStock (product : ProductDto) : bool :=
  stockQuantity product <=? 0.

(** The description paragraph: absent for a missing or empty description,
    cut to 100 characters and an ellipsis for a long one. *)
Definition description_text (product : ProductDto) : option string :=
  match shown (description product) with
  | Some d =>
      Some (if (100 <? String.length d)%nat
            then String.substring 0 100 d +:+ "..."
            else d)
  | None => None
  end.

Definition stock_label (product : ProductDto) : string :=
  if isOutOfStock product then "Out of Stock"
  else JsString.Number_toString (stockQuantity product) +:+ " in stock".

(** What stands under the card: the button for an identified user, the
    link to registration otherwise. *)
Inductive Action : Type :=
| AddButton (label : string) (disabled : bool)
| RegisterLink.

Definition action (currentUserId : option Z) (product : ProductDto) : Action :=
  match UserContext.identified currentUserId with
  | Some _ =>
      AddButton (if isOutOfStock product then "Out of Stock" else "Add to Cart")
                (isOutOfStock product)
  | None => RegisterLink
  end.

End ProductCard.

(** [src/components/CartItem.tsx] *)
Module CartItem.
Import React.

(** The Remove button's handler. *)
Definition handleRemove {S} (onRemove : Z -> M S unit) (item : CartItemDto)
    : M S unit :=
  onRemove (item_productId item).

End CartItem.

(** [src/components/Header.tsx] *)
Module Header.

Inductive NavItem : Type :=
| ProductsLink
| CartLink
| UserInfo (id : Z)
| LogoutButton
| RegisterLink.

Definition render (currentUserId : option Z) : list NavItem :=
  ProductsLink ::
  match UserContext.identified currentUserId with
  | Some id => [CartLink; UserInfo id; LogoutButton]
  | None => [RegisterLink]
  end.

(** [onClick={clearUser}] *)
Definition logout (s : UserContext.Session) : UserContext.Session :=
  UserContext.clearUser s.

End Header.

(** How the components are put together. *)
Module Tree.
Import Js React.

(** A card of the product list: [Home] passes its [handleAddToCart] as the
    card's [onAddToCart]. *)
Definition card_click (currentUserId : option Z) (product : ProductDto)
    : M Home.State unit :=
  ProductCard.handleAddToCart (Some (Home.handleAddToCart currentUserId))
    currentUserId product.

(** A line of the cart: [CartPage] passes its [handleRemove] as the line's
    [onRemove]. *)
Definition line_remove (currentUserId : option Z) (item : CartItemDto)
    : M CartPage.State unit :=
  CartItem.handleRemove (CartPage.handleRemove currentUserId) item.

(** What an effect of a handler does to the session: [SetCurrentUserId] is
    the context's function, the others leave the session alone. *)
Definition apply_effect (s : UserContext.Session) (e : Effect)
    : UserContext.Session :=
  match e with
  | SetCurrentUserId id => UserContext.setCurrentUserId id s
  | _ => s
  end.

Definition apply_effects (l : list Effect) (s : UserContext.Session)
    : UserContext.Session :=
  fold_left apply_effect l s.

(** A page reload: the provider starts over with a null id and runs its
    mount effect on the storage that was left behind. *)
Definition reload (s : UserContext.Session) : UserContext.Session :=
  UserContext.mount (UserContext.mkSession None (UserContext.localStorage s)).

End Tree.

(** Vocabulary for statements about texts. *)
Module Texts.
Import JsString.

Fixpoint all_whitespace (s : string) : bool :=
  match s with
  | String c rest => is_whitespace c && all_whitespace rest
  | EmptyString => true
  end.

Fixpoint no_whitespace (s : string) : bool :=
  match s with
  | String c rest => negb (is_whitespace c) && no_whitespace rest
  | EmptyString => true
  end.

(** The number of occurrences of a character. *)
Fixpoint count (c : ascii) (s : string) : nat :=
  match s with
  | String d rest => ((if Ascii.eqb d c then 1 else 0) + count c rest)%nat
  | EmptyString => 0%nat
  end.

End Texts.

(* ===================================================================== *)
(** * Properties of the API client *)
(* ===================================================================== *)

Section ApiFacts.
Import Js Api.

Lemma ok_iff res : ok res = true <-> 200 <= status res <= 299.
Proof. unfold ok. rewrite andb_true_iff, !Z.leb_le. tauto. Qed.

Lemma handleResponse_ok res :
  ok res = true -> status res <> 204 ->
  handleResponse res =
    ([ReadJson],
     match body res with
     | BodyJson j => Resolved (VJson j)
     | BodyMalformed e => Rejected (VError e)
     end).
Proof.
  intros Hok Hst. unfold handleResponse, json. rewrite Hok.
  apply Z.eqb_neq in Hst. rewrite Hst. now destruct (body res).
Qed.

Lemma handleResponse_not_ok res :
  ok res = false ->
  handleResponse res =
    ([ReadJson],
     Rejected (VError (toString
       (or_else (thrown_from res) (JStr ("HTTP " +:+ pretty (status res))))))).
Proof.
  intros Hok. unfold handleResponse, json, thrown_from, new_Error. rewrite Hok.
  now destruct (body res).
Qed.

Lemma truthy_JStr s : truthy (JStr s) = true <-> s <> "".
Proof.
  simpl. rewrite negb_true_iff. split.
  - intros H ->. now rewrite String.eqb_refl in H.
  - intros H. apply String.eqb_neq. exact H.
Qed.

(** Where the error body's message is absent or is a string, a failed
    response rejects with the preferred message, which is not empty. *)
Lemma handleResponse_textual res :
  ok res = false -> textual_message res ->
  handleResponse res = ([ReadJson], Rejected (VError (preferred_message res)))
  /\ preferred_message res <> "".
Proof.
  intros Hok Htext. rewrite (handleResponse_not_ok _ Hok).
  assert (Hfb : forall s,
    toString (or_else (JStr s) (JStr ("HTTP " +:+ pretty (status res))))
    = (if String.eqb s "" then "HTTP " +:+ pretty (status res) else s)
    /\ (if String.eqb s "" then "HTTP " +:+ pretty (status res) else s) <> "").
  { intros s. unfold or_else. simpl. destruct (String.eqb_spec s ""); simpl.
    - split; [reflexivity | discriminate].
    - split; [reflexivity | assumption]. }
  unfold textual_message, thrown_from, preferred_message in *.
  destruct (body res) as [b | e]; [| destruct (Hfb (statusText res)) as [-> ?]; auto].
  destruct (opt_get b "message") as [| [ | | | m | | ] | ]; try contradiction;
    [ destruct (Hfb (statusText res)) as [-> ?]; auto | ].
  simpl. destruct (String.eqb_spec m ""); simpl.
  - destruct (Hfb (statusText res)) as [-> ?]; auto.
  - unfold or_else. rewrite (proj2 (truthy_JStr m)) by assumption. auto.
Qed.

(** A failed response rejects with an empty message exactly when its body
    parses and carries a truthy message whose string form is empty. *)
Lemma handleResponse_empty_iff res :
  ok res = false ->
  (handleResponse res).2 = Rejected (VError "")
  <-> exists b m, body res = BodyJson b /\ opt_get b "message" = VJson m
                  /\ truthy m = true /\ toString m = "".
Proof.
  intros Hok. rewrite (handleResponse_not_ok _ Hok). cbn [snd].
  assert (Hfb : toString (or_else (JStr (statusText res))
                                  (JStr ("HTTP " +:+ pretty (status res)))) <> "").
  { unfold or_else. simpl. destruct (String.eqb_spec (statusText res) ""); simpl;
      [discriminate | assumption]. }
  unfold thrown_from.
  destruct (body res) as [b | e].
  - destruct (opt_get b "message") as [| m | e] eqn:Hget.
    + split; [intros [= H]; exact (False_ind _ (Hfb H)) |].
      intros (b' & m' & [= <-] & Hget' & _). congruence.
    + destruct (truthy m) eqn:Hm.
      * unfold or_else. rewrite Hm. split.
        -- intros [= H]. now exists b, m.
        -- intros (b' & m' & [= <-] & Hget' & _ & Hs).
           assert (m' = m) as -> by congruence. now rewrite Hs.
      * split; [intros [= H]; exact (False_ind _ (Hfb H)) |].
        intros (b' & m' & [= <-] & Hget' & Hm' & _).
        assert (m' = m) as -> by congruence. congruence.
    + split; [intros [= H]; exact (False_ind _ (Hfb H)) |].
      intros (b' & m' & [= <-] & Hget' & _). congruence.
  - split; [intros [= H]; exact (False_ind _ (Hfb H)) |].
    intros (b' & m' & [=] & _).
Qed.

(** C1 (fails on the code).  A failed response whose error body carries an
    empty array as its message rejects with an error whose message is the
    empty string: the array is truthy, so neither the status text nor
    ["HTTP {status}"] replaces it, and its string form is empty. *)
Theorem handleResponse_empty_message :
  let res := mkResponse 500 "Internal Server Error"
               (BodyJson (JObj [("message", JArr [])])) in
  ok res = false
  /\ handleResponse res = ([ReadJson], Rejected (VError ""))
  /\ preferred_message res = "Internal Server Error".
Proof. repeat split. Qed.

(** C7.  A response with status 204 resolves with [undefined], and its body
    is never read. *)
Theorem handleResponse_no_content res :
  status res = 204 ->
  handleResponse res = ([], Resolved VUndefined)
  /\ json_reads (handleResponse res) = 0%nat.
Proof.
  intros H. unfold handleResponse, ok. rewrite H. simpl. split; reflexivity.
Qed.

Lemma handleResponse_no_content_witness :
  let res := mkResponse 204 "No Content" (BodyMalformed "Unexpected end of JSON input") in
  handleResponse res = ([], Resolved VUndefined)
  /\ json_reads (handleResponse res) = 0%nat.
Proof. apply handleResponse_no_content. reflexivity. Defined.

Lemma send_resolved BASE fetch c res :
  (forall req, fetch req = Resolved res) ->
  exists req, perform BASE fetch c
              = (Fetch req :: (handleResponse res).1, (handleResponse res).2).
Proof.
  intros Hnet.
  destruct c; simpl;
    unfold createUser, getUsers, getUserById, updateUser, deleteUser,
           getProducts, getProductById, getCart, addToCart, removeFromCart,
           checkout, send;
    rewrite Hnet; destruct (handleResponse res); eauto.
Qed.

(** C6.  A 2xx response other than 204 has its body read as JSON exactly
    once; the call settles as the parse does, so it rejects with the parse
    error when the body is malformed and never resolves with [undefined].
    The same holds for every endpoint that receives such a response, the
    void ones included. *)
Theorem handleResponse_malformed_success res :
  200 <= status res <= 299 -> status res <> 204 ->
  json_reads (handleResponse res) = 1%nat
  /\ (forall e, body res = BodyMalformed e ->
        (handleResponse res).2 = Rejected (VError e))
  /\ (handleResponse res).2 <> Resolved VUndefined
  /\ (forall BASE fetch c e,
        (forall req, fetch req = Resolved res) ->
        body res = BodyMalformed e ->
        (perform BASE fetch c).2 = Rejected (VError e)).
Proof.
  intros Hok Hst. apply ok_iff in Hok.
  pose proof (handleResponse_ok res Hok Hst) as Hrun.
  repeat split.
  - now rewrite Hrun.
  - intros e He. now rewrite Hrun, He.
  - rewrite Hrun. simpl. destruct (body res); discriminate.
  - intros BASE fetch c e Hnet He.
    destruct (send_resolved BASE fetch c res Hnet) as [req ->].
    simpl. now rewrite Hrun, He.
Qed.

Lemma handleResponse_malformed_success_witness :
  let res := mkResponse 200 "OK" (BodyMalformed "Unexpected end of JSON input") in
  json_reads (handleResponse res) = 1%nat
  /\ (forall e, body res = BodyMalformed e ->
        (handleResponse res).2 = Rejected (VError e))
  /\ (handleResponse res).2 <> Resolved VUndefined
  /\ (forall BASE fetch c e,
        (forall req, fetch req = Resolved res) ->
        body res = BodyMalformed e ->
        (perform BASE fetch c).2 = Rejected (VError e)).
Proof.
  apply handleResponse_malformed_success; [simpl; lia | discriminate].
Defined.

Lemma handleResponse_issues_nothing res : issued (handleResponse res) = [].
Proof.
  unfold handleResponse, issued.
  destruct (ok res); [destruct (status res =? 204) |]; reflexivity.
Qed.

Lemma issued_send fetch u i : issued (send fetch u i) = [mkRequest u i].
Proof.
  unfold send. destruct (fetch _) as [res | e]; [| reflexivity].
  pose proof (handleResponse_issues_nothing res) as H.
  destruct (handleResponse res) as [l o].
  change (mkRequest u i :: issued (l, o) = [mkRequest u i]).
  now rewrite H.
Qed.

(** Every endpoint other than the two DELETE ones sets
    [Accept: application/json], and sets [Content-Type: application/json]
    whenever it sends a body. *)
Lemma perform_sends_json_headers BASE fetch c req :
  (forall id, c <> DeleteUser id) ->
  (forall u p, c <> RemoveFromCart u p) ->
  In req (issued (perform BASE fetch c)) ->
  sends req "Accept" "application/json"
  /\ (body_json (init req) <> None -> sends req "Content-Type" "application/json").
Proof.
  intros Hdel Hrem.
  destruct c; try (now destruct (Hdel _ eq_refl));
    try (now destruct (Hrem _ _ eq_refl));
    unfold perform, createUser, getUsers, getUserById, updateUser,
           getProducts, getProductById, getCart, addToCart, checkout;
    rewrite issued_send; (intros [<- | []]); split;
    solve [ reflexivity | intros H; now destruct H ].
Qed.

(** C5 (fails on the code).  [deleteUser] and [removeFromCart] each issue
    one DELETE request whose init carries no headers at all, so the
    [Accept] header that goes out is the browser's default and not
    [application/json]. *)
Theorem delete_requests_send_no_json_accept BASE fetch (id userId productId : Z) :
  (exists req, issued (deleteUser BASE fetch id) = [req]
     /\ method (init req) = Some "DELETE"
     /\ headers (init req) = []
     /\ sends req "Accept" "*/*"
     /\ ~ sends req "Accept" "application/json")
  /\
  (exists req, issued (removeFromCart BASE fetch userId productId) = [req]
     /\ method (init req) = Some "DELETE"
     /\ headers (init req) = []
     /\ sends req "Accept" "*/*"
     /\ ~ sends req "Accept" "application/json").
Proof.
  unfold deleteUser, removeFromCart. rewrite !issued_send.
  split; eexists; (split; [reflexivity |]); repeat split; discriminate.
Qed.

End ApiFacts.

(* ===================================================================== *)
(** * Properties of the session identity *)
(* ===================================================================== *)

Section SessionFacts.
Import JsString UserContext.

Example Number_toString_42 : Number_toString 42 = "42".
Proof. reflexivity. Qed.

(** C10.  After [setCurrentUserId id] the identity is [id], and the key
    ["ai-store-user-id"] is present exactly when the id is not null.  For an
    id that is a safe integer the entry is the decimal string of the id (for
    null it is absent), so that session and storage agree.  After
    [clearUser] the session is anonymous and the key is absent. *)
Theorem storage_in_sync (id : option Z) (s : Session) :
  USER_ID_STORAGE_KEY = "ai-store-user-id"
  /\ currentUserId (setCurrentUserId id s) = id
  /\ (is_Some (localStorage (setCurrentUserId id s) !! "ai-store-user-id")
      <-> id <> None)
  /\ (safe id ->
      in_sync (setCurrentUserId id s)
      /\ match id with
         | Some n => localStorage (setCurrentUserId id s) !! "ai-store-user-id"
                     = Some (pretty n)
         | None => localStorage (setCurrentUserId id s) !! "ai-store-user-id" = None
         end)
  /\ currentUserId (clearUser s) = None
  /\ localStorage (clearUser s) !! "ai-store-user-id" = None.
Proof.
  unfold in_sync, clearUser, setCurrentUserId, USER_ID_STORAGE_KEY, Number_toString.
  simpl. split; [reflexivity | split; [reflexivity | split; [| split; [| split]]]].
  - destruct id as [n |].
    + rewrite lookup_insert_eq. split; [discriminate | eauto].
    + rewrite lookup_delete_eq. split; [intros [x Hx]; discriminate | congruence].
  - intros _. destruct id as [n |]; simpl.
    + split; apply lookup_insert_eq.
    + split; apply lookup_delete_eq.
  - reflexivity.
  - apply lookup_delete_eq.
Qed.

Lemma storage_in_sync_witness :
  safe (Some 42)
  /\ localStorage (setCurrentUserId (Some 42) (mkSession None ∅))
     !! "ai-store-user-id" = Some "42".
Proof.
  split; [reflexivity |].
  destruct (storage_in_sync (Some 42) (mkSession None ∅))
    as (_ & _ & _ & Htext & _).
  exact (proj2 (Htext eq_refl)).
Defined.

End SessionFacts.

(* ===================================================================== *)
(** * Properties of [parseInt] *)
(* ===================================================================== *)

Section ParseFacts.
Import JsString.



Lemma digit_of_code c d :
  digit_of c = Some d -> 48 <= Z.of_N (N_of_ascii c) <= 57.
Proof.
  unfold digit_of. destruct (_ && _) eqn:E; [| discriminate].
  intros _. apply andb_true_iff in E. rewrite !Z.leb_le in E. lia.
Qed.

Lemma digit_not_whitespace c d : digit_of c = Some d -> is_whitespace c = false.
Proof.
  intros H. apply digit_of_code in H. unfold is_whitespace.
  rewrite !orb_false_iff, andb_false_iff, !Z.leb_gt, !Z.eqb_neq. lia.
Qed.

Lemma digits_prefix_stop s acc :
  starts_with_digit s = false -> digits_prefix s acc = acc.
Proof.
  destruct s as [| c rest]; simpl; [reflexivity |].
  now destruct (digit_of c).
Qed.


Lemma parseInt_non_numeric s : numeric_text s = false -> parseInt s = None.
Proof.
  unfold numeric_text, parseInt. intros H.
  destruct (skip_whitespace s) as [| c rest]; [reflexivity |].
  assert (Hsign : forall t, starts_with_digit t = false ->
                            digits_prefix t None = None)
    by (intros t Ht; now apply digits_prefix_stop).
  destruct c as [[] [] [] [] [] [] [] []];
    solve [ now rewrite Hsign | apply (Hsign _ H) ].
Qed.




End ParseFacts.

(* ===================================================================== *)
(** * Properties of the pages *)
(* ===================================================================== *)

Section PageFacts.
Import Js JsString React.

(** Runs a handler whose API outcomes are known from hypotheses. *)
Ltac run_handler :=
  unfold settled, state_of, effects,
    Home.loadProducts, Home.handleAddToCart,
    CartPage.useEffect, CartPage.loadCart, CartPage.handleRemove,
    CartPage.handleCheckout,
    ProductDetail.handleAddToCart, ProductDetail.onChange,
    Register.handleSubmit,
    try_finally, try_catch, bind, await, perform, ret,
    Home.setProducts, Home.setLoading, Home.setError, Home.setMessage,
    CartPage.setCartItems, CartPage.setLoading, CartPage.setError,
    CartPage.setCheckoutResult,
    ProductDetail.setProduct, ProductDetail.setLoading, ProductDetail.setError,
    ProductDetail.setQuantity, ProductDetail.setMessage,
    Register.setLoading, Register.setError, set;
  cbn.

(** C8.  Entering the cart page with no user id navigates to
    ["/register"] and does nothing else: no request is issued, neither by
    the effect nor by [loadCart], the state is untouched and the page
    renders nothing. *)
Theorem cart_anonymous_redirect (api : ApiModule) (s : CartPage.State) :
  effects (CartPage.useEffect None api s) = [Navigate "/register"]
  /\ navigations (effects (CartPage.useEffect None api s)) = ["/register"]
  /\ requests (effects (CartPage.useEffect None api s)) = []
  /\ state_of (CartPage.useEffect None api s) = s
  /\ requests (effects (CartPage.loadCart None api s)) = []
  /\ CartPage.render None s = CartPage.NullView.
Proof. repeat split. Qed.

(** The handlers' [err instanceof Error ? err.message : fallback] is the
    text a call site is to show. *)
Lemma message_or_caught_text (reason : Value) (fallback : string) :
  message_or reason fallback = caught_text reason fallback.
Proof. now destruct reason. Qed.

(** C9 as stated fails.  When the product fetch of the product page rejects
    with an [Error] whose message is empty, the page displays ["Product not
    found"], which is neither that error's message nor the fallback of the
    call site. *)
Lemma empty_error_message_on_product_page :
  let api := rejecting (VError "") in
  let detail := state_of (ProductDetail.loadProduct (Some 1) api
                            ProductDetail.initial) in
  instanceof_Error (VError "") = true
  /\ ProductDetail.error detail = Some ""
  /\ ProductDetail.render (Some 123) detail
     = ProductDetail.ErrorView "Product not found"
  /\ ProductDetail.displayed_error (ProductDetail.render (Some 123) detail)
     <> shown (Some "")
  /\ ProductDetail.displayed_error (ProductDetail.render (Some 123) detail)
     <> Some "".
Proof. repeat split; discriminate. Qed.

(** C9 (as amended).  At each of the eight call sites that catch a
    rejection, taken one at a time, the page's error becomes the
    rejection's own message if the rejection is an [Error] and the site's
    fixed fallback otherwise: ["Failed to load products"] and ["Failed to
    add to cart"] on the product list, ["Failed to load cart"], ["Failed to
    remove item"] and ["Checkout failed"] on the cart page, ["Failed to load
    product"] and ["Failed to add to cart"] on the product page, ["Failed to
    create user"] on registration.  The page displays that text when it is
    not empty.  An empty [Error] message displays no error text, except
    after the product fetch with no product loaded, where the page shows
    ["Product not found"]. *)
Theorem rejection_message :
  (* Home.loadProducts *)
  (forall (api : ApiModule) (reason : Value) (home : Home.State),
      getProducts api = Rejected reason ->
      let home' := state_of (Home.loadProducts api home) in
      Home.error home' = Some (caught_text reason "Failed to load products")
      /\ Home.displayed_error (Home.render home')
         = shown (Some (caught_text reason "Failed to load products")))
  /\
  (* Home.handleAddToCart *)
  (forall (api : ApiModule) (reason : Value) (userId productId quantity : Z)
          (home : Home.State),
      userId <> 0 ->
      addToCart api userId (Api.mkAddToCart productId quantity) = Rejected reason ->
      let home' := state_of (Home.handleAddToCart (Some userId) productId quantity
                               api home) in
      Home.error home' = Some (caught_text reason "Failed to add to cart")
      /\ (Home.loading home = false ->
          Home.displayed_error (Home.render home')
          = shown (Some (caught_text reason "Failed to add to cart"))))
  /\
  (* CartPage.loadCart *)
  (forall (api : ApiModule) (reason : Value) (userId : Z) (cart : CartPage.State),
      userId <> 0 ->
      getCart api userId = Rejected reason ->
      let cart' := state_of (CartPage.loadCart (Some userId) api cart) in
      CartPage.error cart' = Some (caught_text reason "Failed to load cart")
      /\ (CartPage.checkoutResult cart = None ->
          CartPage.displayed_error (CartPage.render (Some userId) cart')
          = shown (Some (caught_text reason "Failed to load cart"))))
  /\
  (* CartPage.handleRemove *)
  (forall (api : ApiModule) (reason : Value) (userId productId : Z)
          (cart : CartPage.State),
      userId <> 0 ->
      removeFromCart api userId productId = Rejected reason ->
      let cart' := state_of (CartPage.handleRemove (Some userId) productId
                               api cart) in
      CartPage.error cart' = Some (caught_text reason "Failed to remove item")
      /\ (CartPage.loading cart = false ->
          CartPage.checkoutResult cart = None ->
          CartPage.displayed_error (CartPage.render (Some userId) cart')
          = shown (Some (caught_text reason "Failed to remove item"))))
  /\
  (* CartPage.handleCheckout *)
  (forall (api : ApiModule) (reason : Value) (userId : Z) (cart : CartPage.State),
      userId <> 0 ->
      CartPage.cartItems cart <> [] ->
      checkout api userId = Rejected reason ->
      let cart' := state_of (CartPage.handleCheckout (Some userId) cart api cart) in
      CartPage.error cart' = Some (caught_text reason "Checkout failed")
      /\ (CartPage.loading cart = false ->
          CartPage.checkoutResult cart = None ->
          CartPage.displayed_error (CartPage.render (Some userId) cart')
          = shown (Some (caught_text reason "Checkout failed"))))
  /\
  (* ProductDetail.loadProduct *)
  (forall (api : ApiModule) (reason : Value) (currentUserId productId : option Z)
          (detail : ProductDetail.State),
      getProductById api productId = Rejected reason ->
      let detail' := state_of (ProductDetail.loadProduct productId api detail) in
      ProductDetail.error detail'
      = Some (caught_text reason "Failed to load product")
      /\ ProductDetail.displayed_error (ProductDetail.render currentUserId detail')
         = match shown (Some (caught_text reason "Failed to load product")),
                 ProductDetail.product detail with
           | Some text, _ => Some text
           | None, None => Some "Product not found"
           | None, Some _ => None
           end)
  /\
  (* ProductDetail.handleAddToCart *)
  (forall (api : ApiModule) (reason : Value) (userId : Z) (p : ProductDto)
          (detail : ProductDetail.State),
      userId <> 0 ->
      ProductDetail.product detail = Some p ->
      0 < ProductDetail.quantity detail <= stockQuantity p ->
      addToCart api userId
        (Api.mkAddToCart (product_id p) (ProductDetail.quantity detail))
      = Rejected reason ->
      let detail' := state_of (ProductDetail.handleAddToCart (Some userId) detail
                                 api detail) in
      ProductDetail.error detail'
      = Some (caught_text reason "Failed to add to cart")
      /\ (ProductDetail.loading detail = false ->
          ProductDetail.displayed_error
            (ProductDetail.render (Some userId) detail')
          = shown (Some (caught_text reason "Failed to add to cart"))))
  /\
  (* Register.handleSubmit *)
  (forall (api : ApiModule) (reason : Value) (form : Register.State),
      Register.valid form ->
      createUser api (Api.mkCreateUser (trim (Register.username form))
                                       (trim (Register.email form)))
      = Rejected reason ->
      let form' := state_of (Register.handleSubmit form api form) in
      Register.error form' = Some (caught_text reason "Failed to create user")
      /\ Register.displayed_error (Register.render None form')
         = shown (Some (caught_text reason "Failed to create user")))
  /\
  (* the text: the fallback unless the rejection is an Error *)
  (forall (reason : Value) (fallback : string),
      instanceof_Error reason = false ->
      caught_text reason fallback = fallback)
  /\
  (forall (m fallback : string), caught_text (VError m) fallback = m).
Proof.
  split; [| split; [| split; [| split; [| split; [| split; [| split;
    [| split; [| split]]]]]]]].
  - intros api reason home Hp. cbv zeta. split.
    + run_handler. rewrite Hp. cbn. now rewrite message_or_caught_text.
    + run_handler. rewrite Hp. cbn. rewrite message_or_caught_text.
      now destruct (String.eqb _ "").
  - intros api reason userId productId quantity home Hid Hadd. cbv zeta.
    unfold Home.render. run_handler. unfold UserContext.identified.
    rewrite (proj2 (Z.eqb_neq _ _) Hid). cbn. rewrite Hadd. cbn.
    rewrite message_or_caught_text. split; [reflexivity |].
    intros ->. now destruct (String.eqb _ "").
  - intros api reason userId cart Hid Hc. cbv zeta.
    unfold CartPage.render. run_handler. unfold UserContext.identified.
    rewrite (proj2 (Z.eqb_neq _ _) Hid). cbn. rewrite Hc. cbn.
    rewrite message_or_caught_text. split; [reflexivity |].
    now intros ->.
  - intros api reason userId productId cart Hid Hrem. cbv zeta.
    unfold CartPage.render. run_handler. unfold UserContext.identified.
    rewrite (proj2 (Z.eqb_neq _ _) Hid). cbn. rewrite Hrem. cbn.
    rewrite message_or_caught_text. split; [reflexivity |].
    now intros -> ->.
  - intros api reason userId cart Hid Hitems Hout. cbv zeta.
    assert (Hlen : (length (CartPage.cartItems cart) =? 0)%nat = false).
    { destruct (CartPage.cartItems cart); [congruence | reflexivity]. }
    unfold CartPage.render. run_handler. unfold UserContext.identified.
    rewrite (proj2 (Z.eqb_neq _ _) Hid), Hlen. cbn. rewrite Hout. cbn.
    rewrite message_or_caught_text. split; [reflexivity |].
    now intros -> ->.
  - intros api reason currentUserId productId detail Hp. cbv zeta.
    unfold ProductDetail.render, ProductDetail.loadProduct. run_handler.
    rewrite Hp. cbn.
    rewrite message_or_caught_text. split; [reflexivity |].
    destruct (String.eqb _ ""); [| reflexivity].
    now destruct (ProductDetail.product detail).
  - intros api reason userId p detail Hid Hprod Hq Hadd. cbv zeta.
    unfold ProductDetail.render. run_handler. unfold UserContext.identified.
    rewrite (proj2 (Z.eqb_neq _ _) Hid), Hprod. cbn.
    rewrite (proj2 (Z.leb_gt _ _) (proj1 Hq)).
    rewrite Z.gtb_ltb, (proj2 (Z.ltb_ge _ _) (proj2 Hq)).
    cbn. rewrite Hadd. cbn. rewrite message_or_caught_text.
    split; [reflexivity |]. intros ->. rewrite Hprod.
    now destruct (String.eqb _ "").
  - intros api reason form (Hu & He & Hre) Hr. cbv zeta. split.
    + run_handler.
      rewrite (proj2 (String.eqb_neq _ _) Hu), (proj2 (String.eqb_neq _ _) He), Hre.
      cbn. rewrite Hr. cbn. now rewrite message_or_caught_text.
    + run_handler.
      rewrite (proj2 (String.eqb_neq _ _) Hu), (proj2 (String.eqb_neq _ _) He), Hre.
      cbn. rewrite Hr. cbn. now rewrite message_or_caught_text.
  - intros [| j | m] fallback; [reflexivity | reflexivity | discriminate].
  - reflexivity.
Qed.

Lemma rejection_message_witness :
  let products_down :=
    mkApi (Rejected (VJson JNull)) (getProductById Samples.flaky)
      (addToCart Samples.flaky) (getCart Samples.flaky)
      (removeFromCart Samples.flaky) (checkout Samples.flaky)
      (createUser Samples.flaky) in
  Home.displayed_error
    (Home.render (state_of (Home.loadProducts products_down Home.initial)))
  = Some "Failed to load products"
  /\ Home.displayed_error
       (Home.render
          (state_of (Home.handleAddToCart (Some 123) 1 1
                       (rejecting (VJson (JStr "boom"))) Samples.listing)))
     = Some "Failed to add to cart"
  /\ CartPage.displayed_error
       (CartPage.render (Some 123)
          (state_of (CartPage.loadCart (Some 123) (rejecting VUndefined)
                       CartPage.initial)))
     = Some "Failed to load cart"
  /\ CartPage.displayed_error
       (CartPage.render (Some 123)
          (state_of (CartPage.handleRemove (Some 123) 1 Samples.flaky
                       Samples.basket)))
     = Some "Item not in cart"
  /\ CartPage.displayed_error
       (CartPage.render (Some 123)
          (state_of (CartPage.handleCheckout (Some 123) Samples.basket
                       Samples.flaky Samples.basket)))
     = Some "Checkout failed"
  /\ ProductDetail.displayed_error
       (ProductDetail.render (Some 123)
          (state_of (ProductDetail.loadProduct (Some 1)
                       (rejecting (VJson (JObj []))) ProductDetail.initial)))
     = Some "Failed to load product"
  /\ ProductDetail.displayed_error
       (ProductDetail.render (Some 123)
          (state_of (ProductDetail.handleAddToCart (Some 123) Samples.viewing
                       (rejecting (VJson (JNum 500))) Samples.viewing)))
     = Some "Failed to add to cart"
  /\ Register.displayed_error
       (Register.render None
          (state_of (Register.handleSubmit Samples.filled_form
                       (rejecting (VError "Username already exists"))
                       Samples.filled_form)))
     = Some "Username already exists".
Proof.
  cbv zeta.
  destruct rejection_message
    as (Hload & Hadd & Hcart & Hremove & Hcheckout & Hproduct & Hdetail
        & Hsubmit & _).
  split; [| split; [| split; [| split; [| split; [| split; [| split]]]]]].
  - apply (Hload _ (VJson JNull) Home.initial). reflexivity.
  - refine (proj2 (Hadd (rejecting (VJson (JStr "boom"))) (VJson (JStr "boom"))
                     123 1 1 Samples.listing _ eq_refl) eq_refl).
    discriminate.
  - refine (proj2 (Hcart (rejecting VUndefined) VUndefined 123 CartPage.initial
                     _ eq_refl) eq_refl).
    discriminate.
  - refine (proj2 (Hremove Samples.flaky (VError "Item not in cart") 123 1
                     Samples.basket _ eq_refl) eq_refl eq_refl).
    discriminate.
  - refine (proj2 (Hcheckout Samples.flaky (VJson (JStr "String error")) 123
                     Samples.basket _ _ eq_refl) eq_refl eq_refl);
      discriminate.
  - apply (Hproduct (rejecting (VJson (JObj []))) (VJson (JObj [])) (Some 123)
             (Some 1) ProductDetail.initial). reflexivity.
  - refine (proj2 (Hdetail (rejecting (VJson (JNum 500))) (VJson (JNum 500)) 123
                     Samples.laptop Samples.viewing _ eq_refl _ eq_refl) eq_refl).
    + discriminate.
    + cbn. lia.
  - apply (Hsubmit (rejecting (VError "Username already exists"))
             (VError "Username already exists") Samples.filled_form).
    + repeat split; discriminate.
    + reflexivity.
Defined.

(** What a resolved checkout leaves behind. *)
Lemma handleCheckout_resolved (api : ApiModule) (userId : Z) (s : CartPage.State)
    (r : CheckoutResultDto) :
  userId <> 0 ->
  CartPage.cartItems s <> [] ->
  checkout api userId = Resolved r ->
  CartPage.handleCheckout (Some userId) s api s
  = (Resolved tt,
     CartPage.mkState (if success r then [] else CartPage.cartItems s)
       (CartPage.loading s) None (Some r),
     [Issue (Checkout userId)]).
Proof.
  intros Hid Hitems Hres.
  assert (Hlen : (length (CartPage.cartItems s) =? 0)%nat = false).
  { destruct (CartPage.cartItems s); [congruence | reflexivity]. }
  run_handler. unfold UserContext.identified.
  rewrite (proj2 (Z.eqb_neq _ _) Hid), Hlen. cbn. rewrite Hres. cbn.
  now destruct (success r).
Qed.

(** C2.  With the checkout button on screen, a checkout that resolves never
    throws and stores the result.  If the result's success flag is false the
    cart items are left as they were and the page shows the failure card
    with the result's message; if it is true the cart items are emptied. *)
Theorem checkout_resolved (api : ApiModule) (userId : Z) (s : CartPage.State)
    (r : CheckoutResultDto) :
  userId <> 0 ->
  CartPage.loading s = false ->
  CartPage.cartItems s <> [] ->
  checkout api userId = Resolved r ->
  let run := CartPage.handleCheckout (Some userId) s api s in
  settled run = Resolved tt
  /\ requests (effects run) = [Checkout userId]
  /\ CartPage.checkoutResult (state_of run) = Some r
  /\ (success r = false ->
        CartPage.cartItems (state_of run) = CartPage.cartItems s
        /\ CartPage.render (Some userId) (state_of run)
           = CartPage.ResultView false "Checkout Failed" (message r) None
               (default [] (purchasedItems r)))
  /\ (success r = true -> CartPage.cartItems (state_of run) = []).
Proof.
  intros Hid Hload Hitems Hres. cbv zeta.
  rewrite (handleCheckout_resolved api userId s r Hid Hitems Hres).
  unfold settled, state_of, effects, CartPage.render, UserContext.identified.
  rewrite (proj2 (Z.eqb_neq _ _) Hid). cbn. rewrite Hload.
  split; [reflexivity | split; [reflexivity | split; [reflexivity | split]]].
  - intros Hs. rewrite Hs. split; reflexivity.
  - intros Hs. now rewrite Hs.
Qed.

Lemma checkout_resolved_witness :
  let run := CartPage.handleCheckout (Some 123) Samples.basket
               (Samples.resolving Samples.declined) Samples.basket in
  settled run = Resolved tt
  /\ requests (effects run) = [Checkout 123]
  /\ CartPage.checkoutResult (state_of run) = Some Samples.declined
  /\ (success Samples.declined = false ->
        CartPage.cartItems (state_of run) = [Samples.line]
        /\ CartPage.render (Some 123) (state_of run)
           = CartPage.ResultView false "Checkout Failed"
               "Some items out of stock" None [])
  /\ (success Samples.declined = true -> CartPage.cartItems (state_of run) = []).
Proof.
  apply (checkout_resolved (Samples.resolving Samples.declined) 123
           Samples.basket Samples.declined);
    [discriminate | reflexivity | discriminate | reflexivity].
Defined.

(** The quantity guards of the product page, for an identified user and a
    loaded product. *)
Lemma add_to_cart_guards (api : ApiModule) (userId : Z) (p : ProductDto)
    (s : ProductDetail.State) :
  userId <> 0 ->
  ProductDetail.product s = Some p ->
  let q := ProductDetail.quantity s in
  let run := ProductDetail.handleAddToCart (Some userId) s api s in
  requests (effects run)
  = (if (0 <? q) && (q <=? stockQuantity p)
     then [AddToCart userId (Api.mkAddToCart (product_id p) q)] else [])
  /\ (q <= 0 ->
        ProductDetail.message (state_of run) = Some "Quantity must be greater than 0")
  /\ (0 < q -> stockQuantity p < q ->
        ProductDetail.message (state_of run)
        = Some ("Only " +:+ pretty (stockQuantity p) +:+ " items available in stock")).
Proof.
  intros Hid Hp. cbv zeta. run_handler. unfold UserContext.identified.
  rewrite (proj2 (Z.eqb_neq _ _) Hid), Hp.
  destruct (Z.leb_spec (ProductDetail.quantity s) 0) as [Hle | Hgt].
  - rewrite (proj2 (Z.ltb_ge _ _)) by lia. cbn.
    split; [reflexivity | split; [reflexivity | lia]].
  - rewrite (proj2 (Z.ltb_lt _ _)) by lia. rewrite Z.gtb_ltb.
    destruct (Z.ltb_spec (stockQuantity p) (ProductDetail.quantity s)) as [Hover | Hfit].
    + rewrite (proj2 (Z.leb_gt _ _)) by lia. cbn.
      split; [reflexivity | split; [lia | reflexivity]].
    + rewrite (proj2 (Z.leb_le _ _)) by lia. cbn.
      destruct (addToCart api userId _); cbn;
        (split; [reflexivity | split; lia]).
Qed.







End PageFacts.

(* ===================================================================== *)
(** * Further properties of the API client *)
(* ===================================================================== *)

Section ApiContract.
Import Js Api.

(** Every endpoint is one [fetch] followed by [handleResponse]. *)
Lemma perform_send BASE fetch c :
  exists path i, perform BASE fetch c = send fetch (BASE +:+ path) i.
Proof.
  destruct c; unfold perform, createUser, getUsers, getUserById, updateUser,
    deleteUser, getProducts, getProductById, getCart, addToCart,
    removeFromCart, checkout; eauto.
Qed.

Lemma json_reads_handleResponse res :
  json_reads (handleResponse res) = if ok res && (status res =? 204) then 0%nat else 1%nat.
Proof.
  unfold handleResponse, json_reads.
  destruct (ok res); [destruct (status res =? 204) |]; reflexivity.
Qed.

(** X1.  When the transport itself fails, every endpoint rejects with the
    transport's own rejection value, unchanged, after one request and
    without reading any body. *)
Theorem transport_failure_propagates BASE fetch c reason :
  (forall req, fetch req = Rejected reason) ->
  (perform BASE fetch c).2 = Rejected reason
  /\ length (issued (perform BASE fetch c)) = 1%nat
  /\ json_reads (perform BASE fetch c) = 0%nat.
Proof.
  intros Hnet. destruct (perform_send BASE fetch c) as (path & i & ->).
  unfold send. rewrite Hnet. repeat split.
Qed.

Lemma transport_failure_propagates_witness :
  let offline := fun _ : Request => Rejected (VError "Failed to fetch") in
  (perform "" offline GetProducts).2 = Rejected (VError "Failed to fetch")
  /\ length (issued (perform "" offline GetProducts)) = 1%nat
  /\ json_reads (perform "" offline GetProducts) = 0%nat.
Proof.
  apply (transport_failure_propagates "" (fun _ => Rejected (VError "Failed to fetch"))
           GetProducts (VError "Failed to fetch")).
  reflexivity.
Defined.

(** X2.  Whatever the network does, an endpoint issues exactly one request, to
    a URL under the base URL, and reads a response body at most once. *)
Theorem one_request_per_call BASE fetch c :
  (exists req path, issued (perform BASE fetch c) = [req]
                    /\ url req = BASE +:+ path)
  /\ (json_reads (perform BASE fetch c) <= 1)%nat.
Proof.
  destruct (perform_send BASE fetch c) as (path & i & ->). split.
  - exists (mkRequest (BASE +:+ path) i), path. now rewrite issued_send.
  - unfold send. destruct (fetch _) as [res | e]; [| unfold json_reads; simpl; lia].
    pose proof (json_reads_handleResponse res) as H.
    destruct (handleResponse res) as [l o].
    change (json_reads (Fetch (mkRequest (BASE +:+ path) i) :: l, o))
      with (json_reads (l, o)).
    rewrite H. destruct (_ && _); lia.
Qed.

(** X3.  [handleResponse] resolves only for an ok response and rejects only
    with instances of [Error]: a caller's [instanceof Error] test never
    fails on one of its rejections. *)
Theorem handleResponse_rejects_with_Error res :
  match (handleResponse res).2 with
  | Resolved _ => ok res = true
  | Rejected reason => instanceof_Error reason = true
  end.
Proof.
  unfold handleResponse, json, new_Error.
  destruct (ok res); [destruct (status res =? 204) |]; cbn;
    try reflexivity; destruct (body res); reflexivity.
Qed.

(** X4.  [handleResponse] resolves exactly for a 2xx response that either has
    status 204 or a body that parses; it then yields [undefined] for 204
    and the parsed value, whatever its shape, otherwise. *)
Theorem handleResponse_resolves_iff res v :
  (handleResponse res).2 = Resolved v
  <-> 200 <= status res <= 299
      /\ ((status res = 204 /\ v = VUndefined)
          \/ (status res <> 204 /\ exists j, body res = BodyJson j /\ v = VJson j)).
Proof.
  rewrite <- ok_iff. unfold handleResponse, json.
  destruct (ok res) eqn:Hok.
  - destruct (Z.eqb_spec (status res) 204) as [H204 | H204]; cbn.
    + split.
      * intros [= <-]. split; [reflexivity | left; now split].
      * intros [_ [[_ ->] | [Hne _]]]; [reflexivity | contradiction].
    + destruct (body res) as [j | e]; split.
      * intros [= <-]. split; [reflexivity | right; split; eauto].
      * intros [_ [[He _] | [_ (j' & [= <-] & ->)]]]; [contradiction | reflexivity].
      * discriminate.
      * intros [_ [[He _] | [_ (j' & [=] & _)]]]. contradiction.
  - split; [| intros [[=] _]]. destruct (body res); discriminate.
Qed.

Lemma handleResponse_textual_witness :
  let res := mkResponse 404 "Not Found" (BodyMalformed "Unexpected token <") in
  handleResponse res = ([ReadJson], Rejected (VError "Not Found"))
  /\ preferred_message res <> "".
Proof.
  apply (handleResponse_textual
           (mkResponse 404 "Not Found" (BodyMalformed "Unexpected token <")));
    [reflexivity | exact I].
Defined.

Lemma handleResponse_empty_iff_witness :
  let res := mkResponse 404 "" (BodyJson (JObj [("message", JStr "")])) in
  (handleResponse res).2 = Rejected (VError "")
  <-> exists b m, body res = BodyJson b /\ opt_get b "message" = VJson m
                  /\ truthy m = true /\ toString m = "".
Proof.
  apply (handleResponse_empty_iff
           (mkResponse 404 "" (BodyJson (JObj [("message", JStr "")])))).
  reflexivity.
Defined.

Lemma perform_sends_json_headers_witness :
  let call := AddToCart 7 (mkAddToCart 3 2) in
  let req := mkRequest "/api/cart/add?userId=7"
               (mkInit (Some "POST") json_headers
                       (Some (AddToCartRequest_json (mkAddToCart 3 2)))) in
  sends req "Accept" "application/json"
  /\ (body_json (init req) <> None -> sends req "Content-Type" "application/json").
Proof.
  apply (perform_sends_json_headers "" (fun _ => Rejected VUndefined)
           (AddToCart 7 (mkAddToCart 3 2))); [discriminate | discriminate |].
  left. reflexivity.
Defined.

(** X8.  Requests for different ids go to different URLs: the read of a user,
    of a product, of a cart and the checkout of a cart. *)
Theorem urls_tell_ids_apart BASE fetch (a b : Z) :
  a <> b ->
  issued (getUserById BASE fetch a) <> issued (getUserById BASE fetch b)
  /\ issued (getProductById BASE fetch a) <> issued (getProductById BASE fetch b)
  /\ issued (getCart BASE fetch a) <> issued (getCart BASE fetch b)
  /\ issued (checkout BASE fetch a) <> issued (checkout BASE fetch b)
  /\ issued (deleteUser BASE fetch a) <> issued (deleteUser BASE fetch b).
Proof.
  intros Hab.
  unfold getUserById, getProductById, getCart, checkout, deleteUser.
  rewrite !issued_send.
  repeat split; intros [= H]; apply Hab;
    apply (inj (String.app BASE)) in H;
    apply (inj (String.app _)) in H;
    now apply (inj pretty) in H.
Qed.

Lemma urls_tell_ids_apart_witness :
  let net := fun _ : Request => Rejected VUndefined in
  issued (getUserById "" net 1) <> issued (getUserById "" net 2)
  /\ issued (getProductById "" net 1) <> issued (getProductById "" net 2)
  /\ issued (getCart "" net 1) <> issued (getCart "" net 2)
  /\ issued (checkout "" net 1) <> issued (checkout "" net 2)
  /\ issued (deleteUser "" net 1) <> issued (deleteUser "" net 2).
Proof.
  apply (urls_tell_ids_apart "" (fun _ => Rejected VUndefined) 1 2). discriminate.
Defined.

End ApiContract.

(* ===================================================================== *)
(** * Further properties of the session identity *)
(* ===================================================================== *)

Section SessionLifecycle.
Import JsString UserContext.

Lemma digit_of_pretty_N_char (d : N) :
  (d < 10)%N -> digit_of (pretty_N_char d) = Some (Z.of_N d).
Proof.
  intros H.
  assert (d = 0 \/ d = 1 \/ d = 2 \/ d = 3 \/ d = 4 \/ d = 5 \/ d = 6
          \/ d = 7 \/ d = 8 \/ d = 9)%N as Hd by lia.
  repeat (destruct Hd as [-> | Hd]; [reflexivity |]). now subst.
Qed.

(** Reading back the digits that [pretty] writes in front of [s]. *)
Lemma digits_prefix_pretty_N_go (x : N) (s : string) :
  digits_prefix (pretty_N_go x s) None
  = digits_prefix s (if decide (x = 0)%N then None else Some (Z.of_N x)).
Proof.
  revert s. induction (N.lt_wf_0 x) as [x _ IH]. intros s.
  destruct (decide (x = 0)%N) as [-> | Hx].
  - now rewrite pretty_N_go_0.
  - rewrite pretty_N_go_step by lia.
    rewrite IH by (apply N.div_lt; lia).
    cbn [digits_prefix].
    rewrite digit_of_pretty_N_char by (apply N.mod_lt; lia).
    f_equal. f_equal.
    pose proof (N.div_mod x 10 ltac:(lia)) as Hdiv.
    clear IH. set (q := (x `div` 10)%N) in *. set (r := (x `mod` 10)%N) in *.
    clearbody q r.
    destruct (decide (q = 0)%N) as [H0 | H0]; cbn [default]; unfold id; lia.
Qed.

(** A positive number prints with a digit in front. *)
Lemma pretty_N_go_head (x : N) (s : string) :
  (0 < x)%N ->
  exists c t d, pretty_N_go x s = String c t /\ digit_of c = Some d.
Proof.
  revert s. induction (N.lt_wf_0 x) as [x _ IH]. intros s Hx.
  rewrite pretty_N_go_step by assumption.
  destruct (decide (x `div` 10 = 0)%N) as [H0 | H0].
  - rewrite H0, pretty_N_go_0. do 3 eexists. split; [reflexivity |].
    apply digit_of_pretty_N_char. apply N.mod_lt. lia.
  - apply IH; [apply N.div_lt; lia | now apply N.neq_0_lt_0].
Qed.

Lemma parseInt_pretty_pos (p : positive) :
  parseInt (pretty (N.pos p)) = Some (Z.pos p)
  /\ digits_prefix (pretty (N.pos p)) None = Some (Z.pos p).
Proof.
  unfold pretty, pretty_N. destruct (decide (N.pos p = 0)%N); [discriminate |].
  assert (Hd : digits_prefix (pretty_N_go (N.pos p) "") None = Some (Z.pos p)).
  { rewrite digits_prefix_pretty_N_go.
    destruct (decide (N.pos p = 0)%N); [discriminate | reflexivity]. }
  split; [| exact Hd].
  destruct (pretty_N_go_head (N.pos p) "" ltac:(lia)) as (c & t & d & Heq & Hc).
  rewrite Heq in *. unfold parseInt. cbn [skip_whitespace].
  rewrite (digit_not_whitespace c d Hc).
  pose proof (digit_of_code c d Hc) as Hcode.
  destruct c as [[] [] [] [] [] [] [] []];
    try exact Hd; simpl in Hcode; lia.
Qed.

Lemma parseInt_pretty (n : Z) : parseInt (pretty n) = Some n.
Proof.
  destruct n as [| p | p].
  - reflexivity.
  - change (pretty (Z.pos p)) with (pretty (N.pos p)). apply parseInt_pretty_pos.
  - change (pretty (Z.neg p)) with (String "-" (pretty (N.pos p))).
    unfold parseInt. cbn [skip_whitespace].
    change (is_whitespace "-") with false. cbv iota.
    now rewrite (proj2 (parseInt_pretty_pos p)).
Qed.

Lemma pretty_nonempty (n : Z) : pretty n <> "".
Proof.
  intros H. pose proof (parseInt_pretty n) as Hp. rewrite H in Hp. discriminate.
Qed.

(** A provider that starts over on a storage holding the text of a safe
    integer [n] adopts [n]. *)
Lemma mount_after_set (n : Z) (ls : gmap string string) :
  isSafeInteger n = true ->
  mount (mkSession None (<[USER_ID_STORAGE_KEY := Number_toString n]> ls))
  = mkSession (Some n) (<[USER_ID_STORAGE_KEY := Number_toString n]> ls).
Proof.
  intros _. unfold mount, Number_toString. cbn [localStorage].
  rewrite lookup_insert_eq.
  rewrite (proj2 (String.eqb_neq _ _) (pretty_nonempty n)). cbn [negb].
  now rewrite parseInt_pretty.
Qed.

(** A provider that starts over on a storage without the key stays
    anonymous. *)
Lemma mount_after_clear (ls : gmap string string) :
  mount (mkSession None (delete USER_ID_STORAGE_KEY ls))
  = mkSession None (delete USER_ID_STORAGE_KEY ls).
Proof. unfold mount. cbn [localStorage]. now rewrite lookup_delete_eq. Qed.

(** X9.  The text written for an id reads back as that id: [parseInt] undoes
    [toString] on every safe integer, negative ones included, and the text
    is never empty or non-numeric, so the mount effect never discards it. *)
Theorem parseInt_Number_toString (n : Z) :
  isSafeInteger n = true ->
  parseInt (Number_toString n) = Some n
  /\ Number_toString n <> ""
  /\ numeric_text (Number_toString n) = true.
Proof.
  intros _. unfold Number_toString. split; [apply parseInt_pretty |].
  split; [apply pretty_nonempty |].
  destruct (numeric_text (pretty n)) eqn:E; [reflexivity |].
  apply parseInt_non_numeric in E. rewrite parseInt_pretty in E. discriminate.
Qed.

Lemma parseInt_Number_toString_witness :
  isSafeInteger (-1205) = true /\ parseInt (Number_toString (-1205)) = Some (-1205).
Proof.
  split; [reflexivity |].
  apply (parseInt_Number_toString (-1205)). reflexivity.
Defined.

(** X10.  The identity survives a reload: after [setCurrentUserId] with an id
    that is a safe integer, a provider that starts over on the same storage
    adopts that id; after [clearUser] (or [setCurrentUserId(null)]) it stays
    anonymous.  In both cases the reloaded session and its storage agree. *)
Theorem reload_restores_identity (n : Z) (s : Session) :
  isSafeInteger n = true ->
  currentUserId (Tree.reload (setCurrentUserId (Some n) s)) = Some n
  /\ in_sync (Tree.reload (setCurrentUserId (Some n) s))
  /\ currentUserId (Tree.reload (clearUser s)) = None
  /\ in_sync (Tree.reload (clearUser s)).
Proof.
  intros Hsafe.
  unfold Tree.reload, clearUser, setCurrentUserId. cbn [localStorage].
  rewrite (mount_after_set _ _ Hsafe), mount_after_clear.
  unfold in_sync. cbn [localStorage currentUserId].
  rewrite lookup_insert_eq, lookup_delete_eq. repeat split.
Qed.

Lemma reload_restores_identity_witness :
  isSafeInteger 42 = true
  /\ currentUserId
       (Tree.reload (setCurrentUserId (Some 42) (mkSession None ∅))) = Some 42.
Proof.
  split; [reflexivity |].
  apply (reload_restores_identity 42 (mkSession None ∅)). reflexivity.
Defined.

(** X11.  The mount effect never writes to the storage, and it adopts an id only
    from an entry that is present and parses: when the key is missing or
    its text does not begin with a number, the provider's state is left as
    it was. *)
Theorem mount_reads_only (s : Session) :
  localStorage (mount s) = localStorage s
  /\ (currentUserId (mount s) = currentUserId s
      \/ exists stored id,
           localStorage s !! USER_ID_STORAGE_KEY = Some stored
           /\ parseInt stored = Some id
           /\ currentUserId (mount s) = Some id)
  /\ match localStorage s !! USER_ID_STORAGE_KEY with
     | Some stored => numeric_text stored = false -> mount s = s
     | None => mount s = s
     end.
Proof.
  unfold mount. destruct (localStorage s !! USER_ID_STORAGE_KEY) as [stored |] eqn:E.
  - destruct (negb (String.eqb stored "")) eqn:Hne.
    + destruct (parseInt stored) as [id |] eqn:Hp.
      * split; [reflexivity |]. split; [right; eauto |].
        intros Hn. rewrite (parseInt_non_numeric _ Hn) in Hp. discriminate.
      * repeat split; auto.
    + repeat split; auto.
  - repeat split; auto.
Qed.

(** X12.  Logging out from the header: the session becomes anonymous, the
    stored entry is gone, the header offers registration instead of the
    cart, the cart page redirects, and a reload stays anonymous. *)
Theorem logout_ends_session (s : Session) (api : React.ApiModule)
    (cart : CartPage.State) :
  let s' := Header.logout s in
  currentUserId s' = None
  /\ localStorage s' !! USER_ID_STORAGE_KEY = None
  /\ Header.render (currentUserId s') = [Header.ProductsLink; Header.RegisterLink]
  /\ React.effects (CartPage.useEffect (currentUserId s') api cart)
     = [React.Navigate "/register"]
  /\ currentUserId (Tree.reload s') = None.
Proof.
  cbv zeta. unfold Header.logout, Tree.reload, clearUser, setCurrentUserId.
  cbn [currentUserId localStorage].
  rewrite mount_after_clear, lookup_delete_eq. repeat split.
Qed.

(** X13.  The header offers the cart, the user id and the logout button exactly
    when the id is neither null nor 0; the same ids are the ones for which
    the cart page loads the cart instead of redirecting. *)
Theorem header_matches_cart_page (id : option Z) (api : React.ApiModule)
    (cart : CartPage.State) :
  (In Header.CartLink (Header.render id)
   <-> React.requests (React.effects (CartPage.useEffect id api cart)) <> [])
  /\ (In Header.RegisterLink (Header.render id)
      <-> React.effects (CartPage.useEffect id api cart)
          = [React.Navigate "/register"])
  /\ (In Header.CartLink (Header.render id) <-> exists n, id = Some n /\ n <> 0).
Proof.
  unfold Header.render, CartPage.useEffect, CartPage.loadCart, identified.
  destruct id as [n |]; [destruct (Z.eqb_spec n 0) as [-> | Hn] |]; cbn.
  all: repeat split; try tauto.
  all: try solve [ intros H; repeat (destruct H as [H | H]); discriminate || contradiction ].
  all: try solve [ intros (m & [= <-] & Hm); now destruct Hm ].
  all: try solve [ intros (m & [=] & _) ].
  all: try solve [ intros _; eauto ].
  all: unfold React.try_finally, React.try_catch, React.bind, React.await,
         CartPage.setLoading, CartPage.setError, CartPage.setCartItems, React.set;
       cbn; destruct (React.getCart api n); cbn; discriminate.
Qed.

End SessionLifecycle.

(* ===================================================================== *)
(** * Further properties of the pages *)
(* ===================================================================== *)

Section PageBehaviour.
Import Js JsString React Texts.

Ltac unfold_handler :=
  unfold settled, state_of, effects,
    Tree.card_click, Tree.line_remove,
    ProductCard.handleAddToCart, CartItem.handleRemove,
    Home.loadProducts, Home.handleAddToCart,
    CartPage.useEffect, CartPage.handleRemove, CartPage.handleCheckout,
    CartPage.loadCart,
    ProductDetail.useEffect, ProductDetail.loadProduct,
    ProductDetail.handleAddToCart, ProductDetail.onChange,
    Register.handleSubmit,
    try_finally, try_catch, bind, await, perform, ret,
    Home.setProducts, Home.setLoading, Home.setError, Home.setMessage,
    CartPage.setCartItems, CartPage.setLoading, CartPage.setError,
    CartPage.setCheckoutResult,
    ProductDetail.setProduct, ProductDetail.setLoading, ProductDetail.setError,
    ProductDetail.setQuantity, ProductDetail.setMessage,
    Register.setLoading, Register.setError, set;
  cbn.

Lemma identified_Some (userId : Z) :
  userId <> 0 -> UserContext.identified (Some userId) = Some userId.
Proof. intros H. unfold UserContext.identified. now rewrite (proj2 (Z.eqb_neq _ _) H). Qed.

Lemma shown_param (t : string) : t <> "" -> shown (Some t) = Some t.
Proof. intros H. simpl. now destruct (String.eqb_spec t ""). Qed.

Lemma identified_nonzero id userId :
  UserContext.identified id = Some userId -> id = Some userId /\ userId <> 0.
Proof.
  unfold UserContext.identified. destruct id as [n |]; [| discriminate].
  destruct (Z.eqb_spec n 0); [discriminate |]. now intros [= <-].
Qed.

(** What a run of [loadCart] comes to. *)
Lemma loadCart_run (api : ApiModule) (id : option Z) (s : CartPage.State) :
  CartPage.loadCart id api s
  = match UserContext.identified id with
    | None => (Resolved tt, s, [])
    | Some u =>
        match getCart api u with
        | Resolved data =>
            (Resolved tt,
             CartPage.mkState data false None (CartPage.checkoutResult s),
             [Issue (GetCart u)])
        | Rejected e =>
            (Resolved tt,
             CartPage.mkState (CartPage.cartItems s) false
               (Some (message_or e "Failed to load cart"))
               (CartPage.checkoutResult s),
             [Issue (GetCart u)])
        end
    end.
Proof.
  unfold_handler. destruct (UserContext.identified id); [| reflexivity].
  cbn. now destruct (getCart api _).
Qed.

(** What a run of [handleRemove] comes to. *)
Lemma handleRemove_run (api : ApiModule) (id : option Z) (productId : Z)
    (s : CartPage.State) :
  CartPage.handleRemove id productId api s
  = match UserContext.identified id with
    | None => (Resolved tt, s, [])
    | Some u =>
        match removeFromCart api u productId with
        | Resolved _ =>
            let '(r, s', l) :=
              CartPage.loadCart id api
                (CartPage.mkState (CartPage.cartItems s) (CartPage.loading s)
                   None (CartPage.checkoutResult s)) in
            (r, s', Issue (RemoveFromCart u productId) :: l)
        | Rejected e =>
            (Resolved tt,
             CartPage.mkState (CartPage.cartItems s) (CartPage.loading s)
               (Some (message_or e "Failed to remove item"))
               (CartPage.checkoutResult s),
             [Issue (RemoveFromCart u productId)])
        end
    end.
Proof.
  unfold CartPage.handleRemove.
  destruct (UserContext.identified id) as [u |] eqn:Hid; [| reflexivity].
  unfold try_catch, bind, await, CartPage.setError, set. cbn.
  destruct (removeFromCart api u productId) as [[] | e]; [| reflexivity].
  rewrite loadCart_run, Hid.
  destruct (getCart api u); reflexivity.
Qed.

(** X14.  A product fetch that resolves always ends in the product list with
    the fetched products, whatever the page showed before (the loading
    indicator, or the error view whose Retry button ran it): the error is
    cleared, the products are replaced, and one request was issued. *)
Theorem loadProducts_shows_products (api : ApiModule) (s : Home.State)
    (data : list ProductDto) :
  getProducts api = Resolved data ->
  settled (Home.loadProducts api s) = Resolved tt
  /\ requests (effects (Home.loadProducts api s)) = [GetProducts]
  /\ state_of (Home.loadProducts api s)
     = Home.mkState data false None (Home.message s)
  /\ Home.render (state_of (Home.loadProducts api s))
     = Home.ProductsView (shown (Home.message s)) data.
Proof.
  intros H. unfold Home.render. unfold_handler. rewrite H. cbn. repeat split.
Qed.

Lemma loadProducts_shows_products_witness :
  let failed := Home.mkState [] false (Some "Network error") None in
  let api := Samples.resolving Samples.accepted in
  settled (Home.loadProducts api failed) = Resolved tt
  /\ requests (effects (Home.loadProducts api failed)) = [GetProducts]
  /\ state_of (Home.loadProducts api failed)
     = Home.mkState [Samples.laptop] false None None
  /\ Home.render (state_of (Home.loadProducts api failed))
     = Home.ProductsView None [Samples.laptop].
Proof.
  apply (loadProducts_shows_products (Samples.resolving Samples.accepted)
           (Home.mkState [] false (Some "Network error") None) [Samples.laptop]).
  reflexivity.
Defined.

(** X15.  The three fetches on entering a page never throw and always end with
    the loading flag off, after exactly one request, whether the request
    resolves or rejects: no page is left on its loading indicator. *)
Theorem loaders_settle (api : ApiModule) (userId : Z) (productId : option Z)
    (home : Home.State) (cart : CartPage.State) (detail : ProductDetail.State) :
  userId <> 0 ->
  (settled (Home.loadProducts api home) = Resolved tt
   /\ Home.loading (state_of (Home.loadProducts api home)) = false
   /\ requests (effects (Home.loadProducts api home)) = [GetProducts])
  /\ (settled (CartPage.loadCart (Some userId) api cart) = Resolved tt
      /\ CartPage.loading (state_of (CartPage.loadCart (Some userId) api cart)) = false
      /\ requests (effects (CartPage.loadCart (Some userId) api cart))
         = [GetCart userId])
  /\ (settled (ProductDetail.loadProduct productId api detail) = Resolved tt
      /\ ProductDetail.loading
           (state_of (ProductDetail.loadProduct productId api detail)) = false
      /\ requests (effects (ProductDetail.loadProduct productId api detail))
         = [GetProductById productId]).
Proof.
  intros Hid. split; [| split].
  - unfold_handler. destruct (getProducts api); cbn; repeat split.
  - rewrite loadCart_run, identified_Some by assumption.
    destruct (getCart api userId); repeat split.
  - unfold_handler. destruct (getProductById api productId); cbn; repeat split.
Qed.

Lemma loaders_settle_witness :
  let api := rejecting (VJson (JStr "down")) in
  (settled (Home.loadProducts api Home.initial) = Resolved tt
   /\ Home.loading (state_of (Home.loadProducts api Home.initial)) = false
   /\ requests (effects (Home.loadProducts api Home.initial)) = [GetProducts])
  /\ (settled (CartPage.loadCart (Some 7) api CartPage.initial) = Resolved tt
      /\ CartPage.loading (state_of (CartPage.loadCart (Some 7) api CartPage.initial))
         = false
      /\ requests (effects (CartPage.loadCart (Some 7) api CartPage.initial))
         = [GetCart 7])
  /\ (settled (ProductDetail.loadProduct None api ProductDetail.initial) = Resolved tt
      /\ ProductDetail.loading
           (state_of (ProductDetail.loadProduct None api ProductDetail.initial)) = false
      /\ requests (effects (ProductDetail.loadProduct None api ProductDetail.initial))
         = [GetProductById None]).
Proof.
  apply (loaders_settle (rejecting (VJson (JStr "down"))) 7 None
           Home.initial CartPage.initial ProductDetail.initial).
  discriminate.
Defined.


(** X17.  The description on a product card is never longer than 103
    characters: a description of up to 100 characters is shown as it is,
    a longer one as its first 100 characters followed by ["..."], and a
    missing or empty one is not shown. *)
Theorem card_description_bounded (p : ProductDto) :
  match ProductCard.description_text p with
  | Some d =>
      (String.length d <= 103)%nat
      /\ exists full,
           description p = Some full /\ full <> ""
           /\ ((String.length full <= 100)%nat -> d = full)
           /\ ((100 < String.length full)%nat ->
               d = String.substring 0 100 full +:+ "..."
               /\ String.length d = 103%nat)
  | None => description p = None \/ description p = Some ""
  end.
Proof.
  assert (Hsub : forall n s, (n <= String.length s)%nat ->
                             String.length (String.substring 0 n s) = n).
  { induction n as [| n IH]; intros [| c s] Hlen; simpl in *;
      try lia; try reflexivity.
    f_equal. apply IH. lia. }
  assert (Happ : forall a b, String.length (a +:+ b)
                             = (String.length a + String.length b)%nat).
  { induction a as [| c a IH]; intros b; simpl; [reflexivity | now rewrite IH]. }
  unfold ProductCard.description_text, shown.
  destruct (description p) as [full |]; [| now left].
  destruct (String.eqb_spec full "") as [-> | Hne]; [now right |].
  destruct (Nat.ltb_spec 100 (String.length full)) as [Hlong | Hshort].
  - assert (Hlen : String.length (String.substring 0 100 full +:+ "...") = 103%nat).
    { rewrite Happ, Hsub by lia. reflexivity. }
    split; [lia |]. exists full. repeat split; try assumption; lia.
  - split; [lia |]. exists full. repeat split; try assumption; lia.
Qed.

(** X18.  Fetching the cart sends one [getCart] for the identified user and,
    when it resolves, replaces the local cart by the server's answer with
    no merging, whatever the cart held before (loading ends, the error is
    cleared, the checkout result is kept); when it rejects the local cart
    is kept.  So fetching twice against the same server state leaves the
    page exactly as fetching once. *)
Theorem loadCart_idempotent (api : ApiModule) (id : option Z) (s : CartPage.State) :
  let once := CartPage.loadCart id api s in
  (forall u data,
      UserContext.identified id = Some u ->
      getCart api u = Resolved data ->
      requests (effects once) = [GetCart u]
      /\ state_of once
         = CartPage.mkState data false None (CartPage.checkoutResult s))
  /\ (forall u reason,
        UserContext.identified id = Some u ->
        getCart api u = Rejected reason ->
        requests (effects once) = [GetCart u]
        /\ CartPage.cartItems (state_of once) = CartPage.cartItems s)
  /\ state_of (CartPage.loadCart id api (state_of once)) = state_of once.
Proof.
  cbv zeta. rewrite !loadCart_run. unfold state_of, effects.
  split; [| split].
  - intros u data -> ->. split; reflexivity.
  - intros u reason -> ->. split; reflexivity.
  - destruct (UserContext.identified id) as [u |]; [| reflexivity].
    destruct (getCart api u); reflexivity.
Qed.

Lemma loadCart_idempotent_witness :
  let stale := CartPage.mkState [Samples.line; Samples.line] true (Some "old") None in
  let once := CartPage.loadCart (Some 7) (Samples.resolving Samples.accepted) stale in
  requests (effects once) = [GetCart 7]
  /\ state_of once = CartPage.mkState [Samples.line] false None None.
Proof.
  apply (proj1 (loadCart_idempotent (Samples.resolving Samples.accepted) (Some 7)
                  (CartPage.mkState [Samples.line; Samples.line] true (Some "old") None))
           7 [Samples.line]); reflexivity.
Defined.

(** X19.  Once a checkout result is held, nothing on the cart page drops it:
    neither the effect, nor a reload, a removal or another checkout; and
    while it is held the page never renders the cart items.  Only
    navigation leaves the result card. *)
Theorem checkout_result_sticks (api : ApiModule) (id : option Z) (productId : Z)
    (s : CartPage.State) (r : CheckoutResultDto) :
  CartPage.checkoutResult s = Some r ->
  let held := fun s' : CartPage.State =>
    is_Some (CartPage.checkoutResult s')
    /\ forall banner items, CartPage.render id s' <> CartPage.CartView banner items in
  held (state_of (CartPage.useEffect id api s))
  /\ held (state_of (CartPage.loadCart id api s))
  /\ held (state_of (CartPage.handleRemove id productId api s))
  /\ held (state_of (CartPage.handleCheckout id s api s)).
Proof.
  intros Hr. cbv zeta.
  assert (Hheld : forall s', is_Some (CartPage.checkoutResult s') ->
            is_Some (CartPage.checkoutResult s')
            /\ forall banner items,
                 CartPage.render id s' <> CartPage.CartView banner items).
  { intros s' [r' Hs']. split; [eauto |]. intros banner items.
    unfold CartPage.render. rewrite Hs'.
    destruct (UserContext.identified id); [| discriminate].
    destruct (CartPage.loading s'); discriminate. }
  assert (Hload : forall s', is_Some (CartPage.checkoutResult s') ->
            is_Some (CartPage.checkoutResult (state_of (CartPage.loadCart id api s')))).
  { intros s' Hs'. rewrite loadCart_run. unfold state_of.
    destruct (UserContext.identified id) as [u |]; [| exact Hs'].
    destruct (getCart api u); exact Hs'. }
  assert (Hs : is_Some (CartPage.checkoutResult s)) by eauto.
  split; [| split; [| split]]; apply Hheld.
  - unfold CartPage.useEffect.
    destruct (UserContext.identified id) eqn:Hid; cbv iota;
      [now apply Hload | exact Hs].
  - now apply Hload.
  - rewrite handleRemove_run. unfold state_of.
    destruct (UserContext.identified id) as [u |] eqn:Hid; [| exact Hs].
    destruct (removeFromCart api u productId); [| exact Hs].
    specialize (Hload (CartPage.mkState (CartPage.cartItems s) (CartPage.loading s)
                         None (CartPage.checkoutResult s)) Hs).
    unfold state_of in Hload.
    destruct (CartPage.loadCart id api _) as [[o s'] l]. exact Hload.
  - unfold_handler.
    destruct (UserContext.identified id) as [u |]; [| exact Hs].
    destruct (_ =? _)%nat; [exact Hs |]. cbn.
    destruct (checkout api u) as [r' | e]; cbn; [| exact Hs].
    destruct (success r'); cbn; eauto.
Qed.

Lemma checkout_result_sticks_witness :
  let s := CartPage.mkState [Samples.line] false None (Some Samples.declined) in
  let api := Samples.resolving Samples.accepted in
  let held := fun s' : CartPage.State =>
    is_Some (CartPage.checkoutResult s')
    /\ forall banner items,
         CartPage.render (Some 7) s' <> CartPage.CartView banner items in
  held (state_of (CartPage.useEffect (Some 7) api s))
  /\ held (state_of (CartPage.loadCart (Some 7) api s))
  /\ held (state_of (CartPage.handleRemove (Some 7) 1 api s))
  /\ held (state_of (CartPage.handleCheckout (Some 7) s api s)).
Proof.
  apply (checkout_result_sticks (Samples.resolving Samples.accepted) (Some 7) 1
           (CartPage.mkState [Samples.line] false None (Some Samples.declined))
           Samples.declined).
  reflexivity.
Defined.

(** X20.  For an anonymous session (a null id, or the id 0) the cart page's
    handlers do nothing: no request, no state change, no effect.  Adding
    to the cart only sets the prompt to register, without a request; the
    product page also schedules the move to the registration page after
    two seconds, which the product list does not. *)
Theorem anonymous_handlers_inert (api : ApiModule) (id : option Z)
    (productId quantity : Z)
    (cart : CartPage.State) (home : Home.State) (detail : ProductDetail.State) :
  UserContext.identified id = None ->
  CartPage.loadCart id api cart = (Resolved tt, cart, [])
  /\ CartPage.handleRemove id productId api cart = (Resolved tt, cart, [])
  /\ CartPage.handleCheckout id cart api cart = (Resolved tt, cart, [])
  /\ Home.handleAddToCart id productId quantity api home
     = (Resolved tt,
        Home.mkState (Home.products home) (Home.loading home) (Home.error home)
          (Some "Please register or login to add items to cart"),
        [])
  /\ ProductDetail.handleAddToCart id detail api detail
     = (Resolved tt,
        ProductDetail.mkState (ProductDetail.product detail)
          (ProductDetail.loading detail) (ProductDetail.error detail)
          (ProductDetail.quantity detail)
          (Some "Please register or login to add items to cart"),
        [SetTimeout (NavigateTo "/register") 2000]).
Proof.
  intros Hid. rewrite loadCart_run, handleRemove_run, Hid.
  unfold_handler. rewrite Hid. repeat split.
Qed.

Lemma anonymous_handlers_inert_witness :
  let api := Samples.resolving Samples.accepted in
  CartPage.loadCart (Some 0) api Samples.basket = (Resolved tt, Samples.basket, [])
  /\ CartPage.handleRemove (Some 0) 1 api Samples.basket
     = (Resolved tt, Samples.basket, [])
  /\ CartPage.handleCheckout (Some 0) Samples.basket api Samples.basket
     = (Resolved tt, Samples.basket, [])
  /\ Home.handleAddToCart (Some 0) 1 1 api Samples.listing
     = (Resolved tt,
        Home.mkState [Samples.laptop] false None
          (Some "Please register or login to add items to cart"),
        [])
  /\ ProductDetail.handleAddToCart (Some 0) Samples.viewing api Samples.viewing
     = (Resolved tt,
        ProductDetail.mkState (Some Samples.laptop) false None 1
          (Some "Please register or login to add items to cart"),
        [SetTimeout (NavigateTo "/register") 2000]).
Proof.
  apply (anonymous_handlers_inert (Samples.resolving Samples.accepted) (Some 0) 1 1
           Samples.basket Samples.listing Samples.viewing).
  reflexivity.
Defined.

(** X21.  Checking out an empty cart never reaches the server: the page only
    shows "Your cart is empty" and holds no checkout result. *)
Theorem empty_cart_checkout (api : ApiModule) (userId : Z) (s : CartPage.State) :
  userId <> 0 ->
  CartPage.cartItems s = [] ->
  CartPage.handleCheckout (Some userId) s api s
  = (Resolved tt,
     CartPage.mkState [] (CartPage.loading s) (Some "Your cart is empty")
       (CartPage.checkoutResult s),
     []).
Proof.
  intros Hid Hempty. unfold CartPage.handleCheckout.
  rewrite identified_Some by assumption. rewrite Hempty. cbn.
  unfold CartPage.setError, set. now rewrite Hempty.
Qed.

Lemma empty_cart_checkout_witness :
  CartPage.handleCheckout (Some 7) (CartPage.mkState [] false None None)
    (Samples.resolving Samples.accepted) (CartPage.mkState [] false None None)
  = (Resolved tt, CartPage.mkState [] false (Some "Your cart is empty") None, []).
Proof.
  apply (empty_cart_checkout (Samples.resolving Samples.accepted) 7
           (CartPage.mkState [] false None None)); [discriminate | reflexivity].
Defined.

(** X22.  Removing a cart line asks the server to remove the line's product id
    and then fetches the cart again.  When the removal went through, the
    page shows what the second request brought: the server's items if it
    resolved, and otherwise the old items with the reload's own error
    text, not the removal's. *)
Theorem line_remove_refetches (api : ApiModule) (userId : Z) (item : CartItemDto)
    (s : CartPage.State) :
  userId <> 0 ->
  removeFromCart api userId (item_productId item) = Resolved tt ->
  let run := Tree.line_remove (Some userId) item api s in
  settled run = Resolved tt
  /\ requests (effects run)
     = [RemoveFromCart userId (item_productId item); GetCart userId]
  /\ state_of run
     = match getCart api userId with
       | Resolved data =>
           CartPage.mkState data false None (CartPage.checkoutResult s)
       | Rejected reason =>
           CartPage.mkState (CartPage.cartItems s) false
             (Some (caught_text reason "Failed to load cart"))
             (CartPage.checkoutResult s)
       end.
Proof.
  intros Hid Hrem. cbv zeta.
  unfold Tree.line_remove, CartItem.handleRemove.
  rewrite handleRemove_run, loadCart_run, identified_Some by assumption.
  rewrite Hrem. cbn [CartPage.cartItems CartPage.checkoutResult].
  destruct (getCart api userId) as [data | reason]; repeat split.
Qed.

Lemma line_remove_refetches_witness :
  let api := mkApi (Resolved []) (fun _ => Rejected VUndefined)
               (fun _ _ => Resolved tt) (fun _ => Rejected (VJson JNull))
               (fun _ _ => Resolved tt) (fun _ => Rejected VUndefined)
               (fun _ => Rejected VUndefined) in
  let run := Tree.line_remove (Some 7) Samples.line api Samples.basket in
  settled run = Resolved tt
  /\ requests (effects run) = [RemoveFromCart 7 1; GetCart 7]
  /\ state_of run
     = CartPage.mkState [Samples.line] false (Some "Failed to load cart") None.
Proof.
  apply (line_remove_refetches
           (mkApi (Resolved []) (fun _ => Rejected VUndefined)
              (fun _ _ => Resolved tt) (fun _ => Rejected (VJson JNull))
              (fun _ _ => Resolved tt) (fun _ => Rejected VUndefined)
              (fun _ => Rejected VUndefined))
           7 Samples.line Samples.basket); [discriminate | reflexivity].
Defined.

(** X23.  Entering the product page with a route parameter fetches that product
    once, and when the fetch resolves the page shows the product with the
    quantity it held (1 at first), the purchase form for an identified
    user, disabled exactly when the stock is not positive, and the prompt
    to register for an anonymous one.  Without a route parameter nothing is
    requested. *)
Theorem product_page_after_load (api : ApiModule) (id : option Z) (param : string)
    (p : ProductDto) (s : ProductDetail.State) :
  param <> "" ->
  getProductById api (parseInt param) = Resolved p ->
  let run := ProductDetail.useEffect (Some param) api s in
  requests (effects run) = [GetProductById (parseInt param)]
  /\ ProductDetail.render id (state_of run)
     = ProductDetail.ProductView p (shown (ProductDetail.message s))
         (match UserContext.identified id with
          | Some _ =>
              ProductDetail.QuantityForm (ProductDetail.quantity s)
                                         (stockQuantity p <=? 0)
          | None => ProductDetail.LoginPrompt
          end)
  /\ ProductDetail.useEffect None api s = (Resolved tt, s, [])
  /\ ProductDetail.useEffect (Some "") api s = (Resolved tt, s, []).
Proof.
  intros Hparam Hget. cbv zeta. unfold ProductDetail.render, ProductDetail.useEffect.
  rewrite (shown_param param Hparam).
  unfold_handler. rewrite Hget. cbn. repeat split.
Qed.

Lemma product_page_after_load_witness :
  let api := Samples.resolving Samples.accepted in
  let run := ProductDetail.useEffect (Some "1") api ProductDetail.initial in
  requests (effects run) = [GetProductById (Some 1)]
  /\ ProductDetail.render (Some 7) (state_of run)
     = ProductDetail.ProductView Samples.laptop None
         (ProductDetail.QuantityForm 1 false)
  /\ ProductDetail.useEffect None api ProductDetail.initial
     = (Resolved tt, ProductDetail.initial, [])
  /\ ProductDetail.useEffect (Some "") api ProductDetail.initial
     = (Resolved tt, ProductDetail.initial, []).
Proof.
  apply (product_page_after_load (Samples.resolving Samples.accepted) (Some 7) "1"
           Samples.laptop ProductDetail.initial); [discriminate | reflexivity].
Defined.

(** X24.  The product page's add-to-cart issues at most one request, and only
    for an identified user, a loaded product and a quantity between 1 and
    the stock; in particular a product that is out of stock never
    produces a request, whatever quantity is held. *)
Theorem add_to_cart_needs_stock (api : ApiModule) (id : option Z)
    (s : ProductDetail.State) :
  let run := ProductDetail.handleAddToCart id s api s in
  (requests (effects run) = []
   \/ exists u p,
        UserContext.identified id = Some u
        /\ ProductDetail.product s = Some p
        /\ 0 < ProductDetail.quantity s <= stockQuantity p
        /\ requests (effects run)
           = [AddToCart u (Api.mkAddToCart (product_id p) (ProductDetail.quantity s))])
  /\ (forall p, ProductDetail.product s = Some p -> stockQuantity p <= 0 ->
        requests (effects run) = []).
Proof.
  cbv zeta.
  destruct (UserContext.identified id) as [u |] eqn:Hid.
  - destruct (identified_nonzero _ _ Hid) as [-> Hu].
    destruct (ProductDetail.product s) as [p |] eqn:Hp.
    + destruct (add_to_cart_guards api u p s Hu Hp) as (Hreq & _ & _).
      cbv zeta in Hreq. rewrite Hreq.
      destruct ((0 <? ProductDetail.quantity s)
                && (ProductDetail.quantity s <=? stockQuantity p)) eqn:Hin.
      * apply andb_true_iff in Hin. rewrite Z.ltb_lt, Z.leb_le in Hin. split.
        -- right. exists u, p. repeat split; try tauto; assumption.
        -- intros p' [= <-] Hout. lia.
      * split; [now left | reflexivity].
    + unfold ProductDetail.handleAddToCart. rewrite Hid, Hp.
      split; [now left | discriminate].
  - unfold ProductDetail.handleAddToCart. rewrite Hid.
    split; [now left | reflexivity].
Qed.

End PageBehaviour.

(* ===================================================================== *)
(** * Further properties of registration *)
(* ===================================================================== *)

Section Registration.
Import Js JsString React Texts.

(** ** Texts *)

Lemma rev_app_rev_app (s t u : string) :
  String.rev_app (String.rev_app s t) u = String.rev_app t (s +:+ u).
Proof.
  revert t u. induction s as [| c s IH]; intros t u; simpl; [reflexivity |].
  now rewrite IH.
Qed.

Lemma rev_involutive (s : string) : String.rev (String.rev s) = s.
Proof.
  unfold String.rev. rewrite rev_app_rev_app.
  change (s +:+ "" = s).
  induction s as [| c s IH]; [reflexivity |].
  change (String c (s +:+ "") = String c s). now f_equal.
Qed.

Lemma no_whitespace_rev_app (s t : string) :
  no_whitespace (String.rev_app s t) = no_whitespace s && no_whitespace t.
Proof.
  revert t. induction s as [| c s IH]; intros t; simpl; [reflexivity |].
  rewrite IH. simpl. destruct (is_whitespace c), (no_whitespace s); reflexivity.
Qed.

Lemma skip_whitespace_plain (s : string) :
  no_whitespace s = true -> skip_whitespace s = s.
Proof.
  destruct s as [| c s]; simpl; [reflexivity |].
  destruct (is_whitespace c); [discriminate | reflexivity].
Qed.

Lemma trim_plain (s : string) : no_whitespace s = true -> trim s = s.
Proof.
  intros H. unfold trim. rewrite (skip_whitespace_plain s H).
  rewrite skip_whitespace_plain; [apply rev_involutive |].
  unfold String.rev. rewrite no_whitespace_rev_app, H. reflexivity.
Qed.

Lemma trim_all_whitespace (s : string) : all_whitespace s = true -> trim s = "".
Proof.
  intros H. unfold trim.
  assert (Hskip : skip_whitespace s = "").
  { induction s as [| c s IH]; simpl in *; [reflexivity |].
    apply andb_true_iff in H as [Hc Hs]. rewrite Hc. now apply IH. }
  now rewrite Hskip.
Qed.

Lemma no_whitespace_app (a b : string) :
  no_whitespace (a +:+ b) = no_whitespace a && no_whitespace b.
Proof.
  induction a as [| c a IH]; simpl; [reflexivity |].
  rewrite IH. now rewrite andb_assoc.
Qed.

Lemma count_app (c : ascii) (a b : string) :
  count c (a +:+ b) = (count c a + count c b)%nat.
Proof. induction a as [| d a IH]; simpl; [reflexivity | rewrite IH; lia]. Qed.

Lemma all_plain_app (a b : string) :
  Register.all_plain (a +:+ b) = Register.all_plain a && Register.all_plain b.
Proof.
  induction a as [| c a IH]; simpl; [reflexivity |].
  rewrite IH. now rewrite andb_assoc.
Qed.

Lemma all_plain_facts (s : string) :
  Register.all_plain s = true -> no_whitespace s = true /\ count "@" s = 0%nat.
Proof.
  induction s as [| c s IH]; simpl; [auto |].
  unfold Register.plain_char. rewrite !andb_true_iff, !negb_true_iff.
  intros [[Hws Hat] Hs]. destruct (IH Hs) as [-> ->]. rewrite Hws, Hat. auto.
Qed.

(** ** The pattern *)

Lemma split_at_sound (s a d : string) :
  Register.split_at s = Some (a, d) -> s = a +:+ "@" +:+ d.
Proof.
  revert a. induction s as [| c s IH]; intros a; simpl; [discriminate |].
  destruct (Ascii.eqb_spec c "@") as [-> | Hc].
  - now intros [= <- <-].
  - destruct (Register.split_at s) as [[a' d'] |]; [| discriminate].
    intros [= <- <-].
    change (String c s = String c (a' +:+ "@" +:+ d')). f_equal. now apply IH.
Qed.

Lemma split_at_complete (a d : string) :
  Register.all_plain a = true ->
  Register.split_at (a +:+ "@" +:+ d) = Some (a, d).
Proof.
  induction a as [| c a IH]; simpl; [reflexivity |].
  unfold Register.plain_char at 1. rewrite !andb_true_iff, !negb_true_iff.
  intros [[_ Hat] Ha]. rewrite Hat. now rewrite IH.
Qed.

Lemma has_inner_dot_spec (seen : bool) (d : string) :
  Register.has_inner_dot seen d = true
  <-> exists b c, d = b +:+ "." +:+ c /\ c <> "" /\ (seen = true \/ b <> "").
Proof.
  revert seen. induction d as [| x rest IH]; intros seen; simpl.
  - split; [discriminate |]. intros (b & c & H & _). destruct b; discriminate.
  - rewrite orb_true_iff, !andb_true_iff, negb_true_iff, IH. split.
    + intros [[[Hseen Hx] Hrest] | (b & c & -> & Hc & _)].
      * apply Ascii.eqb_eq in Hx as ->. exists "", rest.
        split; [reflexivity | split; [now apply String.eqb_neq | now left]].
      * exists (String x b), c.
        split; [reflexivity | split; [assumption | right; discriminate]].
    + intros (b & c & Heq & Hc & Hb). destruct b as [| y b].
      * change (String x rest = String "." c) in Heq. injection Heq as -> ->.
        left. destruct Hb as [-> | Hb]; [| now destruct Hb].
        split; [split; [reflexivity | apply Ascii.eqb_refl] |].
        now apply String.eqb_neq.
      * change (String x rest = String y (b +:+ "." +:+ c)) in Heq.
        injection Heq as -> ->. right.
        exists b, c. split; [reflexivity | split; [assumption | now left]].
Qed.

Lemma emailRegex_test_parts (s : string) :
  Register.emailRegex_test s = true ->
  exists a d, s = a +:+ "@" +:+ d
              /\ Register.all_plain a = true /\ Register.all_plain d = true.
Proof.
  unfold Register.emailRegex_test.
  destruct (Register.split_at s) as [[a d] |] eqn:Hsplit; [| discriminate].
  rewrite !andb_true_iff. intros [[[_ Hpa] Hpd] _].
  exists a, d. rewrite (split_at_sound _ _ _ Hsplit). auto.
Qed.

(** X25.  The hand-written matcher decides the pattern of the source,
    [^[^\s@]+@[^\s@]+\.[^\s@]+$]: a text passes exactly when it is
    [a @ b . c] with [a], [b] and [c] non-empty and free of white space
    and of ["@"]. *)
Theorem emailRegex_test_spec (s : string) :
  Register.emailRegex_test s = true
  <-> exists a b c,
        s = a +:+ "@" +:+ b +:+ "." +:+ c
        /\ a <> "" /\ b <> "" /\ c <> ""
        /\ Register.all_plain a = true /\ Register.all_plain b = true
        /\ Register.all_plain c = true.
Proof.
  unfold Register.emailRegex_test. split.
  - destruct (Register.split_at s) as [[a d] |] eqn:Hsplit; [| discriminate].
    rewrite !andb_true_iff, negb_true_iff. intros [[[Ha Hpa] Hpd] Hdot].
    apply has_inner_dot_spec in Hdot. destruct Hdot as (b & c & Hd & Hc & Hb).
    subst d. destruct Hb as [Hb | Hb]; [discriminate |].
    rewrite all_plain_app in Hpd.
    change (Register.all_plain ("." +:+ c)) with (Register.all_plain c) in Hpd.
    apply andb_true_iff in Hpd. destruct Hpd as [Hpb Hpc].
    exists a, b, c. rewrite (split_at_sound _ _ _ Hsplit).
    repeat split; try assumption. now apply String.eqb_neq.
  - intros (a & b & c & -> & Ha & Hb & Hc & Hpa & Hpb & Hpc).
    rewrite (split_at_complete a _ Hpa).
    rewrite Hpa, all_plain_app, Hpb.
    change (Register.all_plain ("." +:+ c)) with (Register.all_plain c).
    rewrite Hpc, (proj2 (String.eqb_neq _ _) Ha). cbn [negb andb].
    apply has_inner_dot_spec. exists b, c. auto.
Qed.

(** X26.  An email that passes the pattern holds no white space and exactly one
    ["@"], so trimming leaves it as typed: the email sent to the server is
    the one in the field. *)
Theorem accepted_email_is_sent_as_typed (s : string) :
  Register.emailRegex_test s = true ->
  no_whitespace s = true /\ count "@" s = 1%nat /\ trim s = s.
Proof.
  intros H. destruct (emailRegex_test_parts s H) as (a & d & -> & Hpa & Hpd).
  destruct (all_plain_facts a Hpa) as [Hwa Hca].
  destruct (all_plain_facts d Hpd) as [Hwd Hcd].
  assert (Hw : no_whitespace (a +:+ "@" +:+ d) = true).
  { rewrite !no_whitespace_app, Hwa, Hwd. reflexivity. }
  split; [exact Hw |]. split; [| now apply trim_plain].
  rewrite !count_app, Hca, Hcd. reflexivity.
Qed.

Lemma accepted_email_is_sent_as_typed_witness :
  no_whitespace "alice@example.com" = true
  /\ count "@" "alice@example.com" = 1%nat
  /\ trim "alice@example.com" = "alice@example.com".
Proof. apply (accepted_email_is_sent_as_typed "alice@example.com"). reflexivity. Defined.

Lemma accepted_email_trim (s : string) :
  Register.emailRegex_test s = true -> trim s = s.
Proof.
  intros H. destruct (emailRegex_test_parts s H) as (a & d & -> & Hpa & Hpd).
  apply trim_plain.
  rewrite !no_whitespace_app, (proj1 (all_plain_facts a Hpa)),
    (proj1 (all_plain_facts d Hpd)). reflexivity.
Qed.

(** ** The submit handler *)

(** What a run of [handleSubmit] comes to. *)
Lemma handleSubmit_run (api : ApiModule) (s : Register.State) :
  let stop := fun text : string =>
    (Resolved tt,
     Register.mkState (Register.username s) (Register.email s)
       (Register.loading s) (Some text),
     @nil Effect) in
  let dto := Api.mkCreateUser (trim (Register.username s))
                              (trim (Register.email s)) in
  Register.handleSubmit s api s
  = if String.eqb (trim (Register.username s)) "" then stop "Username is required"
    else if String.eqb (trim (Register.email s)) "" then stop "Email is required"
    else if negb (Register.emailRegex_test (Register.email s))
         then stop "Please enter a valid email address"
    else match createUser api dto with
         | Resolved user =>
             (Resolved tt,
              Register.mkState (Register.username s) (Register.email s) false None,
              [Issue (CreateUser dto); SetCurrentUserId (Some (user_id user));
               Navigate "/"])
         | Rejected e =>
             (Resolved tt,
              Register.mkState (Register.username s) (Register.email s) false
                (Some (message_or e "Failed to create user")),
              [Issue (CreateUser dto)])
         end.
Proof.
  cbv zeta. unfold Register.handleSubmit, bind, Register.setError, set. cbn.
  destruct (String.eqb (trim (Register.username s)) ""); [reflexivity |].
  destruct (String.eqb (trim (Register.email s)) ""); [reflexivity |].
  destruct (Register.emailRegex_test (Register.email s)); [| reflexivity].
  cbn. unfold try_finally, try_catch, bind, await, perform, Register.setLoading,
    Register.setError, set. cbn.
  destruct (createUser api _); reflexivity.
Qed.

(** X27.  The form reaches the server exactly when it passes the three client
    checks, and then with one request carrying the trimmed username and
    the trimmed email.  A form that fails a check causes no request, no
    navigation and no change of identity, and shows the message of the
    first failing check: username, then email, then the email's shape. *)
Theorem submit_requests_iff_valid (api : ApiModule) (s : Register.State) :
  let run := Register.handleSubmit s api s in
  let dto := Api.mkCreateUser (trim (Register.username s))
                              (trim (Register.email s)) in
  (Register.valid s <-> requests (effects run) = [CreateUser dto])
  /\ (~ Register.valid s <-> effects run = [])
  /\ (trim (Register.username s) = "" ->
        Register.error (state_of run) = Some "Username is required")
  /\ (trim (Register.username s) <> "" -> trim (Register.email s) = "" ->
        Register.error (state_of run) = Some "Email is required")
  /\ (trim (Register.username s) <> "" -> trim (Register.email s) <> "" ->
      Register.emailRegex_test (Register.email s) = false ->
        Register.error (state_of run) = Some "Please enter a valid email address").
Proof.
  cbv zeta. rewrite handleSubmit_run. cbv zeta. unfold Register.valid.
  destruct (String.eqb_spec (trim (Register.username s)) "") as [Hu | Hu];
    [| destruct (String.eqb_spec (trim (Register.email s)) "") as [He | He];
       [| destruct (Register.emailRegex_test (Register.email s)) eqn:Hre]];
    cbn [negb].
  all: try destruct (createUser api _).
  all: unfold effects, state_of, requests; cbn.
  all: intuition (discriminate || congruence).
Qed.

(** X28.  A username made of white space only, however long, is refused before
    any request: the page shows "Username is required" and nothing else
    changes. *)
Theorem blank_username_refused (api : ApiModule) (s : Register.State) :
  all_whitespace (Register.username s) = true ->
  Register.handleSubmit s api s
  = (Resolved tt,
     Register.mkState (Register.username s) (Register.email s)
       (Register.loading s) (Some "Username is required"),
     []).
Proof.
  intros H. rewrite handleSubmit_run. cbv zeta.
  now rewrite (trim_all_whitespace _ H).
Qed.

Lemma blank_username_refused_witness :
  let s := Register.mkState "   " "alice@example.com" false None in
  Register.handleSubmit s (Samples.resolving Samples.accepted) s
  = (Resolved tt,
     Register.mkState "   " "alice@example.com" false (Some "Username is required"),
     []).
Proof.
  apply (blank_username_refused (Samples.resolving Samples.accepted)
           (Register.mkState "   " "alice@example.com" false None)).
  reflexivity.
Defined.

(** X29.  A registration that the server accepts sends the trimmed username and
    the email exactly as typed, hands the new id to the session, and
    navigates home with the form idle and free of errors.  The session
    then holds the id, and the registration page shows the logged-in card
    for any id other than 0; when the id is a safe integer the storage
    agrees with it and a reload restores it. *)
Theorem registration_success (api : ApiModule) (s : Register.State)
    (user : UserDto) (session : UserContext.Session) :
  Register.valid s ->
  createUser api (Api.mkCreateUser (trim (Register.username s)) (Register.email s))
    = Resolved user ->
  let run := Register.handleSubmit s api s in
  let session' := Tree.apply_effects (effects run) session in
  run = (Resolved tt,
         Register.mkState (Register.username s) (Register.email s) false None,
         [Issue (CreateUser (Api.mkCreateUser (trim (Register.username s))
                                              (Register.email s)));
          SetCurrentUserId (Some (user_id user));
          Navigate "/"])
  /\ UserContext.currentUserId session' = Some (user_id user)
  /\ (JsString.isSafeInteger (user_id user) = true ->
        UserContext.in_sync session'
        /\ UserContext.currentUserId (Tree.reload session') = Some (user_id user))
  /\ (user_id user <> 0 ->
        Register.render (UserContext.currentUserId session') (state_of run)
        = Register.AlreadyLoggedIn (user_id user)).
Proof.
  intros (Hu & He & Hre) Hcreate. cbv zeta.
  assert (Hrun : Register.handleSubmit s api s
    = (Resolved tt,
       Register.mkState (Register.username s) (Register.email s) false None,
       [Issue (CreateUser (Api.mkCreateUser (trim (Register.username s))
                                            (Register.email s)));
        SetCurrentUserId (Some (user_id user));
        Navigate "/"])).
  { rewrite handleSubmit_run. cbv zeta.
    rewrite (proj2 (String.eqb_neq _ _) Hu), (proj2 (String.eqb_neq _ _) He), Hre.
    cbn [negb]. rewrite (accepted_email_trim _ Hre), Hcreate. reflexivity. }
  rewrite Hrun. unfold effects, state_of, Tree.apply_effects. cbn.
  unfold Tree.reload, UserContext.setCurrentUserId. cbn.
  split; [reflexivity |]. split; [reflexivity |].
  split.
  - intros Hsafe. rewrite (mount_after_set _ _ Hsafe).
    split; [unfold UserContext.in_sync; cbn; apply lookup_insert_eq | reflexivity].
  - intros Hid. unfold Register.render. now rewrite identified_Some.
Qed.

Lemma registration_success_witness :
  let api := Samples.resolving Samples.accepted in
  let s := Register.mkState " alice " "alice@example.com" false None in
  let run := Register.handleSubmit s api s in
  let session' := Tree.apply_effects (effects run)
                    (UserContext.mkSession None ∅) in
  run = (Resolved tt,
         Register.mkState " alice " "alice@example.com" false None,
         [Issue (CreateUser (Api.mkCreateUser "alice" "alice@example.com"));
          SetCurrentUserId (Some 123);
          Navigate "/"])
  /\ UserContext.currentUserId session' = Some 123
  /\ (JsString.isSafeInteger 123 = true ->
        UserContext.in_sync session'
        /\ UserContext.currentUserId (Tree.reload session') = Some 123)
  /\ (123 <> 0 ->
        Register.render (UserContext.currentUserId session') (state_of run)
        = Register.AlreadyLoggedIn 123).
Proof.
  apply (registration_success (Samples.resolving Samples.accepted)
           (Register.mkState " alice " "alice@example.com" false None)
           (mkUser 123 "alice" "alice@example.com")
           (UserContext.mkSession None ∅)).
  - repeat split; discriminate.
  - reflexivity.
Defined.

(** X30.  The registration page changes the identity and navigates away only
    after the server accepted a valid form, and then to that user's id: a
    refused form or a rejected request never logs anyone in. *)
Theorem identity_only_on_success (api : ApiModule) (s : Register.State)
    (e : Effect) :
  In e (effects (Register.handleSubmit s api s)) ->
  (exists id, e = SetCurrentUserId id) \/ (exists path, e = Navigate path) ->
  Register.valid s
  /\ exists user,
       createUser api (Api.mkCreateUser (trim (Register.username s))
                                        (trim (Register.email s)))
       = Resolved user
       /\ (e = SetCurrentUserId (Some (user_id user)) \/ e = Navigate "/").
Proof.
  rewrite handleSubmit_run. cbv zeta. unfold Register.valid, effects.
  destruct (String.eqb_spec (trim (Register.username s)) "") as [Hu | Hu];
    [intros [] |].
  destruct (String.eqb_spec (trim (Register.email s)) "") as [He | He];
    [intros [] |].
  destruct (Register.emailRegex_test (Register.email s)) eqn:Hre;
    [| intros []].
  cbn [negb]. destruct (createUser api _) as [user | reason]; cbn.
  - intros [<- | [<- | [<- | []]]] [[id [=]] | [path [=]]].
    + split; [auto |]. exists user. auto.
    + split; [auto |]. exists user. auto.
  - intros [<- | []] [[id [=]] | [path [=]]].
Qed.

Lemma identity_only_on_success_witness :
  let api := Samples.resolving Samples.accepted in
  Register.valid Samples.filled_form
  /\ exists user,
       createUser api (Api.mkCreateUser (trim (Register.username Samples.filled_form))
                                        (trim (Register.email Samples.filled_form)))
       = Resolved user
       /\ (SetCurrentUserId (Some 123) = SetCurrentUserId (Some (user_id user))
           \/ SetCurrentUserId (Some 123) = Navigate "/").
Proof.
  apply (identity_only_on_success (Samples.resolving Samples.accepted)
           Samples.filled_form (SetCurrentUserId (Some 123))).
  - right. left. reflexivity.
  - left. exists (Some 123). reflexivity.
Defined.

End Registration.
